(** * yfa users routes: a shallow embedding of [src/routes/users.js]

    The file models the request handlers of the users route (create, list,
    update, delete, getMessages) together with the part of the JavaScript
    semantics they rely on: property lookup on objects, truthiness, string
    conversion, and the regular expression that validates user names. *)

From Stdlib Require Import Ascii String ZArith Lia.
From stdpp Require Import gmap strings list fin_maps pretty.

#[local] Set Warnings "-register-all".
#[local] Open Scope string_scope.
#[local] Open Scope nat_scope.

(** ** JavaScript values *)

(** Numbers are IEEE doubles in JavaScript.  The handlers only ever test a
    number for truthiness, convert it to a string, or write the literal [0];
    these three operations are the interface [Number] below, and the whole
    development is parametric in it. *)
Class Number (number : Type) := {
  num_zero : number;                       (* the literal 0 *)
  num_to_boolean : number → bool;          (* false for +0, -0 and NaN *)
  num_to_string : number → string          (* Number::toString, radix 10 *)
}.

Section Values.
Context {number : Type}.

(** Values as JSON bodies, query strings and store documents carry them:
    they contain no functions.  A string is a sequence of one-byte
    characters; the classes of the user name pattern are ASCII, so a
    character outside ASCII is outside them however it is encoded.  An
    object is the finite map of its own properties. *)
Inductive value :=
| VUndefined
| VNull
| VBool (b : bool)
| VNumber (n : number)
| VString (s : string)
| VObject (o : gmap string value)
| VArray (l : list value).
End Values.
Arguments value : clear implicits.

(** Integral numbers give a model of [Number] that computes. *)
#[export] Instance Z_Number : Number Z := {|
  num_zero := 0%Z;
  num_to_boolean z := negb (z =? 0)%Z;
  num_to_string := pretty
|}.

Section JS.
Context `{Number number}.

Abbreviation value := (value number).
Abbreviation object := (gmap string value).

(** [o.k]: the value of property [k], [undefined] when [o] has none. *)
Definition get (o : object) (k : string) : value :=
  default VUndefined (o !! k).

(** [o.k = v] *)
Definition set (o : object) (k : string) (v : value) : object :=
  <[k := v]> o.

(** ToBoolean *)
Definition ToBoolean (v : value) : bool :=
  match v with
  | VUndefined | VNull => false
  | VBool b => b
  | VNumber n => num_to_boolean n
  | VString s => negb (String.eqb s "")
  | VObject _ | VArray _ => true
  end.

(** [a || b] *)
Definition js_or (a b : value) : value :=
  if ToBoolean a then a else b.

(** ToString.  [None] stands for a thrown TypeError: an object whose own
    [toString] property shadows [Object.prototype.toString] with a value
    that cannot be called has no primitive value.  An array is converted by
    [join]: its elements are converted in turn, [undefined] and [null] to
    the empty string, and separated by commas. *)
Fixpoint ToString (v : value) : option string :=
  match v with
  | VUndefined => Some "undefined"
  | VNull => Some "null"
  | VBool true => Some "true"
  | VBool false => Some "false"
  | VNumber n => Some (num_to_string n)
  | VString s => Some s
  | VObject o =>
      match o !! "toString" with
      | Some _ => None
      | None => Some "[object Object]"
      end
  | VArray l =>
      (fix join (l : list value) : option string :=
         match l with
         | [] => Some ""
         | x :: rest =>
             let elem :=
               match x with
               | VUndefined | VNull => Some ""
               | _ => ToString x
               end in
             match rest with
             | [] => elem
             | _ :: _ =>
                 match elem, join rest with
                 | Some s, Some r => Some (s ++ "," ++ r)
                 | _, _ => None
                 end
             end
         end) l
  end.
End JS.

(** ** Regular expressions *)

(** The patterns of the route use assertions, character classes, bounded
    quantifiers and concatenation.  Matching follows the continuation
    semantics of the language standard: a matcher takes the index reached so
    far and a continuation for the rest of the pattern. *)
Module RegExp.

Inductive class_atom :=
| ClassChar (c : ascii)
| ClassRange (lo hi : ascii).

Inductive regex :=
| AssertStart                                   (* ^ *)
| AssertEnd                                     (* $ *)
| CharClass (atoms : list class_atom)           (* [...] *)
| Concat (r1 r2 : regex)
| Quantified (r : regex) (min max : nat).       (* r{min,max}, greedy *)

Definition in_atom (c : ascii) (a : class_atom) : bool :=
  match a with
  | ClassChar c' => Ascii.eqb c c'
  | ClassRange lo hi =>
      (N_of_ascii lo <=? N_of_ascii c)%N && (N_of_ascii c <=? N_of_ascii hi)%N
  end.

Definition in_class (atoms : list class_atom) (c : ascii) : bool :=
  existsb (in_atom c) atoms.

Definition continuation := nat → bool.
Definition matcher := nat → continuation → bool.

(** RepeatMatcher: at most [max] further iterations of [m], of which [min]
    are compulsory; an optional iteration that consumes nothing fails. *)
Fixpoint RepeatMatcher (m : matcher) (min max : nat) (x : nat) (c : continuation)
  : bool :=
  match max with
  | 0 => c x
  | S max2 =>
      let d := fun y =>
        if (min =? 0)%nat && (y =? x)%nat then false
        else RepeatMatcher m (pred min) max2 y c in
      if negb (min =? 0)%nat then m x d
      else if m x d then true else c x
  end.

Fixpoint compile (input : list ascii) (r : regex) : matcher :=
  match r with
  | AssertStart => fun x c => if (x =? 0)%nat then c x else false
  | AssertEnd => fun x c => if (x =? length input)%nat then c x else false
  | CharClass atoms => fun x c =>
      match input !! x with
      | Some ch => if in_class atoms ch then c (S x) else false
      | None => false
      end
  | Concat r1 r2 => fun x c =>
      compile input r1 x (fun y => compile input r2 y c)
  | Quantified r min max => RepeatMatcher (compile input r) min max
  end.

(** The search loop of [exec] for a pattern without flags: the match is
    attempted at [lastIndex], then one further to the right, until
    [lastIndex] passes the end of the input. *)
Fixpoint search (r : regex) (input : list ascii) (remaining lastIndex : nat) : bool :=
  if compile input r lastIndex (fun _ => true) then true
  else match remaining with
       | 0 => false
       | S n => search r input n (S lastIndex)
       end.

Definition exec (r : regex) (s : string) : bool :=
  let input := list_ascii_of_string s in
  search r input (length input) 0.

(** [r.test(v)]: the argument is converted to a string first. *)
Definition test `{Number number} (r : regex) (v : value number) : option bool :=
  match ToString v with
  | Some s => Some (exec r s)
  | None => None
  end.

End RegExp.

Import RegExp.

Definition letters : list class_atom :=
  [ClassRange "a" "z"; ClassRange "A" "Z"]%char.

Definition word_chars : list class_atom :=
  [ClassRange "a" "z"; ClassRange "A" "Z"; ClassRange "0" "9"; ClassChar "_"]%char.

(** [/^[a-zA-Z]{1}[a-zA-Z0-9_]{4,15}$/], the pattern in [update]. *)
Definition username_pattern : regex :=
  Concat (Concat (Concat AssertStart
                         (Quantified (CharClass letters) 1 1))
                 (Quantified (CharClass word_chars) 4 15))
         AssertEnd.


(** ** The route's collaborators *)

(** The status codes of the [http-status] package that the route names. *)
Module HttpStatus.
Definition OK : Z := 200.
Definition NO_CONTENT : Z := 204.
Definition BAD_REQUEST : Z := 400.
Definition METHOD_NOT_ALLOWED : Z := 405.
Definition INTERNAL_SERVER_ERROR : Z := 500.
End HttpStatus.

(** [models/user] exports the [User] model; of its constants the route reads
    [User.States.ONLINE]. *)
Class UserModel (number : Type) := {
  States_ONLINE : value number
}.

Section Handlers.
Context `{Number number} `{UserModel number}.

Abbreviation value := (value number).
Abbreviation object := (gmap string value).

(** [req]: the parts of an express request that the handlers read.
    [req_user] is the principal that the passport session attaches. *)
Record request := {
  req_query : object;
  req_params : object;
  req_body : object;
  req_user : object
}.

(** What a handler sends: [res.problem(status, title, detail)] or
    [res.json(status, body)]; an argument left out is [undefined]. *)
Inductive response :=
| problem (status : Z) (title detail : value)
| json (status : Z) (body : value).

(** A handler is the tree of its store calls.  Each call of the model takes
    a callback [(err, result)]; the handler goes on in the callback, so a
    node holds the arguments of the call and the callback as a function.
    A leaf is the response sent, or an uncaught TypeError.  The store hands
    a lookup either [null] or a document, and a listing either [null] or an
    array. *)
Inductive handler :=
| Respond (r : response)
| Throw
| User_publicList (skip take : value)
    (callback : value → option (list value) → handler)
| User_count (conditions : value) (callback : value → value → handler)
| User_fb (facebookId : value) (callback : value → option object → handler)
| user_save (user : object) (callback : value → value → handler)
| user_remove (user : object) (callback : value → value → handler)
| User_getMessages (mid : value)
    (callback : value → option object → handler).

(** [x === null] for a looked-up document and for a value *)
Definition is_null {A} (x : option A) : bool :=
  match x with None => true | Some _ => false end.

Definition value_is_null (v : value) : bool :=
  match v with VNull => true | _ => false end.
End Handlers.

Arguments request : clear implicits.
Arguments response : clear implicits.
Arguments handler : clear implicits.

(** [x === 0] on a number: true of [+0] and [-0], false of every other
    number, [NaN] among them. *)
Class NumberZero (number : Type) := {
  num_is_zero : number → bool
}.

#[export] Instance Z_NumberZero : NumberZero Z := {|
  num_is_zero z := (z =? 0)%Z
|}.

Section Queries.
Context `{Number number} `{NumberZero number}.

Abbreviation value := (value number).

(** [results.length === 0].  [None] stands for the TypeError of a property
    read on [undefined] or [null].  A string and an array have their
    length; an object has the [length] it holds, if any; a boolean and a
    number have none, and [undefined === 0] is false. *)
Definition length_is_zero (results : value) : option bool :=
  match results with
  | VUndefined | VNull => None
  | VBool _ | VNumber _ => Some false
  | VString s => Some (String.length s =? 0)
  | VArray l => Some (length l =? 0)
  | VObject o =>
      Some match get o "length" with
           | VNumber n => num_is_zero n
           | _ => false
           end
  end.

(** The status a response carries. *)
Definition status_of (r : response number) : Z :=
  match r with
  | problem status _ _ => status
  | json status _ => status
  end.

(** A handler that makes one call of the model and answers in its
    callback.  The callback takes [(err, results)], any two values, and
    gives the response sent, [None] after a TypeError. *)
Inductive query :=
| User_getById (mid : value) (callback : value → value → option (response number))
| User_getCohortsById (mid : value)
    (callback : value → value → option (response number))
| User_addCohort (mid id : value)
    (callback : value → value → option (response number))
| User_removeCohort (mid id : value)
    (callback : value → value → option (response number)).
End Queries.
Arguments query : clear implicits.

Module users.
Section Routes.
Context `{Number number} `{UserModel number}.
Import HttpStatus.

Abbreviation value := (value number).
Abbreviation object := (gmap string value).
Abbreviation request := (request number).
Abbreviation handler := (handler number).

(** [exports.create] *)
Definition create (req : request) : handler :=
  Respond (problem METHOD_NOT_ALLOWED
    (VString "You're not allowed to create users on this system")
    (VString "Users are created via 3rd party (Facebook) authentication")).

(** The assignments of [update] that follow the user name check. *)
Definition update_fields (upd user : object) : object :=
  let user := set user "registrationDone" (VBool true) in
  let user := set user "firstName" (js_or (get upd "firstName") (get user "firstName")) in
  let user := set user "lastName" (js_or (get upd "lastName") (get user "lastName")) in
  let user := set user "email" (js_or (get upd "email") (get user "email")) in
  let user := set user "state" States_ONLINE in
  let user := set user "avatar" (get upd "avatar") in
  user.

(** The callback of [user.save] in [update]: [err] is not looked at. *)
Definition update_saved (err user : value) : handler :=
  Respond (json OK user).

(** The callback of [User.fb] in [update] once the user is there.  The
    document is mutated in place: the result is the document as the
    callback leaves it, and what the handler does next. *)
Definition update_user (upd user : object) : object * handler :=
  if negb (ToBoolean (get user "registrationDone")) then
    match test username_pattern (get upd "username") with
    | None => (user, Throw)
    | Some false =>
        (user, Respond (problem BAD_REQUEST
                 (VString "Invalid Username")
                 (VString "User names must be 5-16 characters")))
    | Some true =>
        let user := set user "username" (get upd "username") in
        let user := update_fields upd user in
        (user, user_save user update_saved)
    end
  else
    let user := update_fields upd user in
    (user, user_save user update_saved).

(** [exports.update] *)
Definition update (req : request) : handler :=
  let upd := req_body req in
  User_fb (get (req_user req) "facebookId") (fun err user =>
    if ToBoolean err || is_null user then
      Respond (problem BAD_REQUEST
        (VString "Could not save user information")
        (VString "There was an error processing the request to save your information"))
    else
      match user with
      | Some user => snd (update_user upd user)
      | None => Throw
      end).

(** [exports.delete] *)
Definition delete (req : request) : handler :=
  User_fb (get (req_user req) "facebookId") (fun err user =>
    if ToBoolean err || is_null user then
      Respond (problem BAD_REQUEST
        (VString "Could not delete user")
        (VString "There was an error processing the request to save your information"))
    else
      match user with
      | Some user => user_remove user (fun err result => Respond (json OK result))
      | None => Throw
      end).

(** [exports.getMessages] *)
Definition getMessages (req : request) : handler :=
  User_getMessages (get (req_params req) "mid") (fun err doc =>
    if ToBoolean err || is_null doc
       || match doc with
          | Some doc => value_is_null (get doc "messages")
          | None => false
          end
    then Respond (problem NO_CONTENT VUndefined VUndefined)
    else
      match doc with
      | Some doc => Respond (json OK (VObject doc))
      | None => Throw
      end).

Context `{NumberZero number}.

(** [exports.getById] *)
Definition getById (req : request) : query number :=
  User_getById (get (req_params req) "mid") (fun err results =>
    if ToBoolean err then
      Some (problem INTERNAL_SERVER_ERROR
              (VString "Unexpected problem")
              (VString "Could not retrieve user due to internal error"))
    else if value_is_null results then Some (json NO_CONTENT VUndefined)
    else
      match length_is_zero results with
      | None => None
      | Some true => Some (json NO_CONTENT VUndefined)
      | Some false => Some (json OK results)
      end).

(** [exports.getCohortsById] *)
Definition getCohortsById (req : request) : query number :=
  User_getCohortsById (get (req_params req) "mid") (fun err results =>
    if ToBoolean err then
      Some (problem INTERNAL_SERVER_ERROR
              (VString "Unexpected problem")
              (VString "Could not retrieve cohorts due to internal error"))
    else if value_is_null results then Some (json NO_CONTENT VUndefined)
    else
      match length_is_zero results with
      | None => None
      | Some true => Some (json NO_CONTENT VUndefined)
      | Some false => Some (json OK results)
      end).

(** [exports.addCohortForUser] *)
Definition addCohortForUser (req : request) : query number :=
  User_addCohort (get (req_params req) "mid") (get (req_params req) "id")
    (fun err results =>
      if ToBoolean err then
        Some (problem INTERNAL_SERVER_ERROR
                (VString "Unexpected problem")
                (VString "Could not save cohort due to internal error"))
      else if value_is_null results then Some (json NO_CONTENT VUndefined)
      else
        match length_is_zero results with
        | None => None
        | Some true => Some (json NO_CONTENT VUndefined)
        | Some false => Some (json OK results)
        end).

(** [exports.removeCohortFromUser] *)
Definition removeCohortFromUser (req : request) : query number :=
  User_removeCohort (get (req_params req) "mid") (get (req_params req) "id")
    (fun err results =>
      if ToBoolean err then
        Some (problem INTERNAL_SERVER_ERROR
                (VString "Unexpected problem")
                (VString "Could not remove cohort due to internal error"))
      else if value_is_null results then Some (json NO_CONTENT VUndefined)
      else
        match length_is_zero results with
        | None => None
        | Some true => Some (json NO_CONTENT VUndefined)
        | Some false => Some (json OK results)
        end).

(** [exports.list] *)
Definition list (req : request) : handler :=
  User_publicList (get (req_query req) "skip") (get (req_query req) "take")
    (fun err results =>
      if ToBoolean err then
        Respond (problem INTERNAL_SERVER_ERROR
          (VString "Unexpected problem")
          (VString "Could not list users due to internal error"))
      else
        match results with
        | None => Respond (json NO_CONTENT VUndefined)
        | Some results =>
            if (length results =? 0)%nat then Respond (json NO_CONTENT VUndefined)
            else
              User_count (VObject ∅) (fun err count =>
                Respond (json OK (VObject
                  (<["meta" := VObject {["total" := js_or count (VNumber num_zero)]}]>
                     {["results" := VArray results]}))))
        end).
End Routes.
End users.

(** ** Running a handler against a store *)

(** The store behind the [User] model: every operation takes the state of
    the collection and returns the next state with the two arguments of the
    callback, the error first.  The route fixes nothing else about it, so
    the theorems below hold of every store. *)
Record Store (number S : Type) := {
  publicList : value number → value number → S → S * (value number * option (list (value number)));
  count : value number → S → S * (value number * value number);
  fb : value number → S → S * (value number * option (gmap string (value number)));
  save : gmap string (value number) → S → S * (value number * value number);
  remove : gmap string (value number) → S → S * (value number * value number);
  getMessages : value number → S → S * (value number * option (gmap string (value number)))
}.
Arguments publicList {number S}.
Arguments count {number S}.
Arguments fb {number S}.
Arguments save {number S}.
Arguments remove {number S}.
Arguments getMessages {number S}.

Section Run.
Context {number S : Type} (store : Store number S).

Abbreviation value := (value number).
Abbreviation object := (gmap string value).

(** A store call with the arguments its callback received. *)
Inductive event :=
| EPublicList (skip take err : value) (results : option (list value))
| ECount (conditions err count : value)
| EFb (facebookId err : value) (user : option object)
| ESave (user : object) (err saved : value)
| ERemove (user : object) (err result : value)
| EGetMessages (mid err : value) (doc : option object).

(** [run h s]: the state of the store after the handler, the store calls
    in the order made, and the response ([None] after a TypeError). *)
Fixpoint run (h : handler number) (s : S)
  : S * list event * option (response number) :=
  match h with
  | Respond r => (s, [], Some r)
  | Throw => (s, [], None)
  | User_publicList skip take callback =>
      let '(s1, (err, results)) := publicList store skip take s in
      let '(s2, log, r) := run (callback err results) s1 in
      (s2, EPublicList skip take err results :: log, r)
  | User_count conditions callback =>
      let '(s1, (err, n)) := count store conditions s in
      let '(s2, log, r) := run (callback err n) s1 in
      (s2, ECount conditions err n :: log, r)
  | User_fb facebookId callback =>
      let '(s1, (err, user)) := fb store facebookId s in
      let '(s2, log, r) := run (callback err user) s1 in
      (s2, EFb facebookId err user :: log, r)
  | user_save user callback =>
      let '(s1, (err, saved)) := save store user s in
      let '(s2, log, r) := run (callback err saved) s1 in
      (s2, ESave user err saved :: log, r)
  | user_remove user callback =>
      let '(s1, (err, result)) := remove store user s in
      let '(s2, log, r) := run (callback err result) s1 in
      (s2, ERemove user err result :: log, r)
  | User_getMessages mid callback =>
      let '(s1, (err, doc)) := getMessages store mid s in
      let '(s2, log, r) := run (callback err doc) s1 in
      (s2, EGetMessages mid err doc :: log, r)
  end.

Definition calls (h : handler number) (s : S) : list event := snd (fst (run h s)).
Definition sent (h : handler number) (s : S) : option (response number) := snd (run h s).
Definition final (h : handler number) (s : S) : S := fst (fst (run h s)).
End Run.
Arguments event : clear implicits.

(** The four operations of the model that answer with any value: reading a
    user, reading a user's cohorts, adding a cohort and removing one. *)
Record QueryStore (number S : Type) := {
  getById : value number → S → S * (value number * value number);
  getCohortsById : value number → S → S * (value number * value number);
  addCohort : value number → value number → S → S * (value number * value number);
  removeCohort : value number → value number → S → S * (value number * value number)
}.
Arguments getById {number S}.
Arguments getCohortsById {number S}.
Arguments addCohort {number S}.
Arguments removeCohort {number S}.

Section RunQuery.
Context {number S : Type} (store : QueryStore number S).

Abbreviation value := (value number).

(** The call a query makes, with the arguments its callback received. *)
Inductive query_event :=
| EGetById (mid err results : value)
| EGetCohortsById (mid err results : value)
| EAddCohort (mid id err results : value)
| ERemoveCohort (mid id err results : value).

(** [run_query q s]: the state of the store after the call, the call made,
    and the response ([None] after a TypeError). *)
Definition run_query (q : query number) (s : S)
  : S * query_event * option (response number) :=
  match q with
  | User_getById mid callback =>
      let '(s1, (err, results)) := getById store mid s in
      (s1, EGetById mid err results, callback err results)
  | User_getCohortsById mid callback =>
      let '(s1, (err, results)) := getCohortsById store mid s in
      (s1, EGetCohortsById mid err results, callback err results)
  | User_addCohort mid id callback =>
      let '(s1, (err, results)) := addCohort store mid id s in
      (s1, EAddCohort mid id err results, callback err results)
  | User_removeCohort mid id callback =>
      let '(s1, (err, results)) := removeCohort store mid id s in
      (s1, ERemoveCohort mid id err results, callback err results)
  end.

(** What the store answered to the one call of a query. *)
Definition answered (q : query number) (s : S) : value * value :=
  match snd (fst (run_query q s)) with
  | EGetById _ err results | EGetCohortsById _ err results
  | EAddCohort _ _ err results | ERemoveCohort _ _ err results => (err, results)
  end.

Definition query_sent (q : query number) (s : S) : option (response number) :=
  snd (run_query q s).
End RunQuery.
Arguments query_event : clear implicits.

(** A store in memory, for running the handlers on examples: the collection
    maps the [_id] of a user to the user's document.  With [failing] set
    every write and every count reports an error and changes nothing. *)
Definition has_facebookId (k : string) (entry : string * gmap string (value Z)) : bool :=
  match entry.2 !! "facebookId" with
  | Some (VString k') => String.eqb k k'
  | _ => false
  end.

Definition memory_store (failing : bool) : Store Z (gmap string (gmap string (value Z))) := {|
  publicList skip take s :=
    (s, (VNull, Some (VObject <$> (map_to_list s).*2)));
  count conditions s :=
    if failing then (s, (VString "count failed", VUndefined))
    else (s, (VNull, VNumber (Z.of_nat (size s))));
  fb facebookId s :=
    match facebookId with
    | VString k => (s, (VNull, snd <$> find (has_facebookId k) (map_to_list s)))
    | _ => (s, (VNull, None))
    end;
  save user s :=
    if failing then (s, (VString "save failed", VUndefined))
    else
      match user !! "_id" with
      | Some (VString id) => (<[id := user]> s, (VNull, VObject user))
      | _ => (s, (VString "no _id", VUndefined))
      end;
  remove user s :=
    if failing then (s, (VString "remove failed", VUndefined))
    else
      match user !! "_id" with
      | Some (VString id) => (delete id s, (VNull, VObject user))
      | _ => (s, (VString "no _id", VUndefined))
      end;
  getMessages mid s :=
    match mid with
    | VString id => (s, (VNull, s !! id))
    | _ => (s, (VNull, None))
    end
|}.

#[export] Instance memory_model : UserModel Z := {| States_ONLINE := VString "online" |}.

(** A user who has not registered yet, and one who has. *)
Definition alice : gmap string (value Z) :=
  <["_id" := VString "52aff48d78b818c844000001"]>
  (<["facebookId" := VString "1001"]>
  (<["firstName" := VString "Alice"]>
  (<["registrationDone" := VBool false]> ∅))).

Definition bob : gmap string (value Z) :=
  <["_id" := VString "52aff48d78b818c844000002"]>
  (<["facebookId" := VString "1002"]>
  (<["username" := VString "bobby"]>
  (<["firstName" := VString "Bob"]>
  (<["registrationDone" := VBool true]>
  (<["messages" := VNull]> ∅))))).

Definition db0 : gmap string (gmap string (value Z)) :=
  <["52aff48d78b818c844000001" := alice]> {["52aff48d78b818c844000002" := bob]}.

(** A request of the principal [principal]. *)
Definition request_of (principal : string) (params body : gmap string (value Z))
  : request Z :=
  {| req_query := ∅; req_params := params; req_body := body;
     req_user := {["facebookId" := VString principal]} |}.

(** [{username: "ab1", firstName: "X"}] and [{username: "abcde", firstName: "X"}] *)
Definition body_ab1 : gmap string (value Z) :=
  <["username" := VString "ab1"]> {["firstName" := VString "X"]}.

Definition body_abcde : gmap string (value Z) :=
  <["username" := VString "abcde"]> {["firstName" := VString "X"]}.

(** A body that names another user's [_id] and has empty and absent fields. *)
Definition body_other_id : gmap string (value Z) :=
  <["_id" := VString "52aff48d78b818c844000002"]>
  (<["username" := VString "abcde"]>
  (<["firstName" := VString "X"]>
  (<["lastName" := VString ""]> ∅))).

(** The same collection behind the four other operations.  A user's
    cohorts are the array under [cohorts]; with [failing] set every
    operation reports an error and changes nothing. *)
Definition cohorts_of (d : gmap string (value Z)) : list (value Z) :=
  match get d "cohorts" with
  | VArray l => l
  | _ => []
  end.

Definition other_cohort (id c : value Z) : bool :=
  match id, c with
  | VString a, VString b => negb (String.eqb a b)
  | _, _ => true
  end.

Definition memory_queries (failing : bool)
  : QueryStore Z (gmap string (gmap string (value Z))) := {|
  getById mid s :=
    if failing then (s, (VString "read failed", VUndefined))
    else
      match mid with
      | VString id => (s, (VNull, from_option VObject VNull (s !! id)))
      | _ => (s, (VNull, VNull))
      end;
  getCohortsById mid s :=
    if failing then (s, (VString "read failed", VUndefined))
    else
      match mid with
      | VString id => (s, (VNull, from_option (λ d, VArray (cohorts_of d)) VNull (s !! id)))
      | _ => (s, (VNull, VNull))
      end;
  addCohort mid id s :=
    if failing then (s, (VString "write failed", VUndefined))
    else
      match mid with
      | VString uid =>
          match s !! uid with
          | Some d =>
              let d' := set d "cohorts" (VArray (cohorts_of d ++ [id])) in
              (<[uid := d']> s, (VNull, VObject d'))
          | None => (s, (VNull, VNull))
          end
      | _ => (s, (VNull, VNull))
      end;
  removeCohort mid id s :=
    if failing then (s, (VString "write failed", VUndefined))
    else
      match mid with
      | VString uid =>
          match s !! uid with
          | Some d =>
              let d' := set d "cohorts" (VArray (filter (other_cohort id) (cohorts_of d))) in
              (<[uid := d']> s, (VNull, VObject d'))
          | None => (s, (VNull, VNull))
          end
      | _ => (s, (VNull, VNull))
      end
|}.

(** A request with path parameters [mid] and [id] and no principal. *)
Definition request_for (mid id : string) : request Z :=
  {| req_query := ∅;
     req_params := <["mid" := VString mid]> {["id" := VString id]};
     req_body := ∅; req_user := ∅ |}.

(** A user with cohorts, and the collection with that user added. *)
Definition carol : gmap string (value Z) :=
  <["_id" := VString "52aff48d78b818c844000003"]>
  (<["facebookId" := VString "1003"]>
  (<["registrationDone" := VBool true]>
  (<["cohorts" := VArray [VString "c1"; VString "c2"]]> ∅))).

Definition db1 : gmap string (gmap string (value Z)) :=
  <["52aff48d78b818c844000003" := carol]> db0.

(** [{username: {toString: true}}]: a user name without a string value. *)
Definition body_object_name : gmap string (value Z) :=
  {["username" := VObject {["toString" := VBool true]}]}.

(** The detail of the problem a query reports when the store fails. *)
Definition internal_error_detail {number} (q : query number) : string :=
  match q with
  | User_getById _ _ => "Could not retrieve user due to internal error"
  | User_getCohortsById _ _ => "Could not retrieve cohorts due to internal error"
  | User_addCohort _ _ _ => "Could not save cohort due to internal error"
  | User_removeCohort _ _ _ => "Could not remove cohort due to internal error"
  end.

(** A user document without [registrationDone], alone in a collection. *)
Definition erin : gmap string (value Z) :=
  <["_id" := VString "52aff48d78b818c844000005"]>
  {["facebookId" := VString "1005"]}.

Definition db2 : gmap string (gmap string (value Z)) :=
  {["52aff48d78b818c844000005" := erin]}.

(** The four handlers that make one call and answer with its results. *)
Definition query_handlers `{Number number} `{NumberZero number}
  : list (request number → query number) :=
  [users.getById; users.getCohortsById;
   users.addCohortForUser; users.removeCohortFromUser].

(** ** The user name rule as the specification words it *)

Definition is_ascii_letter (c : ascii) : bool :=
  let n := N_of_ascii c in
  ((65 <=? n) && (n <=? 90) || (97 <=? n) && (n <=? 122))%N.

Definition is_ascii_digit (c : ascii) : bool :=
  let n := N_of_ascii c in
  ((48 <=? n) && (n <=? 57))%N.

Definition is_alnum_or_underscore (c : ascii) : bool :=
  is_ascii_letter c || is_ascii_digit c || Ascii.eqb c "_".

(** A leading ASCII letter followed by 4 to 15 alphanumeric-or-underscore
    characters. *)
Definition valid_username (s : string) : bool :=
  match s with
  | EmptyString => false
  | String c rest =>
      is_ascii_letter c
      && (4 <=? String.length rest)%nat && (String.length rest <=? 15)%nat
      && forallb is_alnum_or_underscore (list_ascii_of_string rest)
  end.

(** [^[A-Za-z][A-Za-z0-9_]{4,15}$], the pattern as the specification
    writes it. *)
Definition specified_pattern : regex :=
  Concat (Concat (Concat AssertStart
                         (CharClass [ClassRange "A" "Z"; ClassRange "a" "z"]%char))
                 (Quantified
                    (CharClass [ClassRange "A" "Z"; ClassRange "a" "z";
                                ClassRange "0" "9"; ClassChar "_"]%char) 4 15))
         AssertEnd.

(** ** The fields [update] reads and writes *)

(** The properties of the body that [update] reads. *)
Definition body_fields : list string :=
  ["username"; "firstName"; "lastName"; "email"; "avatar"].

(** The properties of the user document that [update] assigns. *)
Definition written_fields : list string :=
  ["username"; "registrationDone"; "firstName"; "lastName"; "email"; "state"; "avatar"].

(** Membership of an event in an explicit log, case by case. *)
Ltac log_cases H :=
  repeat (apply elem_of_cons in H as [H|H]; [try discriminate H|]);
  try (apply elem_of_nil in H; destruct H).

(** * Properties *)

(** ** Regular expressions *)

Section RegExpFacts.
Variable input : list ascii.

(** A quantified character class matches [n] characters of the class for
    some [n] between the bounds, and hands over to the continuation. *)
Lemma RepeatMatcher_class atoms max : ∀ min x (c : continuation),
  min ≤ max →
  RepeatMatcher (compile input (CharClass atoms)) min max x c = true ↔
  ∃ n, min ≤ n ≤ max
       ∧ (∀ j, j < n → ∃ ch, input !! (x + j) = Some ch ∧ in_class atoms ch = true)
       ∧ c (x + n) = true.
Proof.
  induction max as [|max IH]; intros min x c Hle.
  - simpl. split.
    + intros Hc. exists 0. rewrite Nat.add_0_r. repeat split; [lia..| |done].
      intros j Hj. lia.
    + intros (n & Hn & _ & Hc). replace n with 0 in Hc by lia.
      by rewrite Nat.add_0_r in Hc.
  - cbn [RepeatMatcher compile].
    assert (Hstep :
      (match input !! x with
       | Some ch =>
           if in_class atoms ch
           then (if (min =? 0)%nat && (S x =? x)%nat then false
                 else RepeatMatcher (compile input (CharClass atoms)) (pred min) max (S x) c)
           else false
       | None => false
       end = true) ↔
      ∃ n, pred min ≤ n ≤ max
           ∧ (∀ j, j < S n → ∃ ch, input !! (x + j) = Some ch ∧ in_class atoms ch = true)
           ∧ c (x + S n) = true).
    { replace (S x =? x)%nat with false by (symmetry; apply Nat.eqb_neq; lia).
      rewrite andb_false_r.
      destruct (input !! x) as [ch|] eqn:Hx.
      - destruct (in_class atoms ch) eqn:Hch.
        + rewrite IH by lia. split.
          * intros (n & Hn & Hall & Hc). exists n. split; [done|]. split.
            -- intros [|j] Hj.
               ++ rewrite Nat.add_0_r. eauto.
               ++ replace (x + S j) with (S x + j) by lia. apply Hall. lia.
            -- by replace (x + S n) with (S x + n) by lia.
          * intros (n & Hn & Hall & Hc). exists n. split; [done|]. split.
            -- intros j Hj. replace (S x + j) with (x + S j) by lia. apply Hall. lia.
            -- by replace (S x + n) with (x + S n) by lia.
        + split; [done|]. intros (n & _ & Hall & _).
          destruct (Hall 0) as (ch' & Hch' & Hin); [lia|].
          rewrite Nat.add_0_r in Hch'. congruence.
      - split; [done|]. intros (n & _ & Hall & _).
        destruct (Hall 0) as (ch' & Hch' & _); [lia|].
        rewrite Nat.add_0_r in Hch'. congruence. }
    destruct min as [|min]; cbn [Nat.eqb negb].
    + match goal with
      | |- (if ?b then true else _) = true ↔ _ =>
          destruct b eqn:Hb
      end.
      * split; [|done]. intros _.
        apply Hstep in Hb as (n & Hn & Hall & Hc).
        exists (S n). repeat split; [lia..|done|done].
      * split.
        -- intros Hc. exists 0. rewrite Nat.add_0_r.
           repeat split; [lia..| |done]. intros j Hj. lia.
        -- intros ([|n] & Hn & Hall & Hc).
           ++ by rewrite Nat.add_0_r in Hc.
           ++ assert (false = true); [|done]. rewrite <- Hb. apply Hstep.
              exists n. repeat split; [simpl; lia|lia|done|done].
    + rewrite Hstep. split.
      * intros (n & Hn & Hall & Hc). exists (S n).
        repeat split; [simpl in Hn; lia..|done|done].
      * intros ([|n] & Hn & Hall & Hc); [lia|].
        exists n. repeat split; [simpl; lia|lia|done|done].
Qed.
End RegExpFacts.

Section PatternFacts.
Variable input : list ascii.

(** A quantified class followed by [$]: the rest of the input is made of
    characters of the class, and its length is within the bounds. *)
Lemma class_to_end atoms min max x :
  min ≤ max → x ≤ length input →
  RepeatMatcher (compile input (CharClass atoms)) min max x
    (λ y, compile input AssertEnd y (λ _, true)) = true ↔
  min ≤ length input - x ≤ max ∧ forallb (in_class atoms) (drop x input) = true.
Proof.
  intros Hle Hx. rewrite RepeatMatcher_class by done. cbn [compile]. split.
  - intros (n & Hn & Hall & Hend).
    destruct (Nat.eqb_spec (x + n) (length input)) as [Hlen|]; [|done].
    split; [lia|]. apply forallb_forall. intros ch Hin.
    apply list_elem_of_In, list_elem_of_lookup in Hin as [j Hj].
    rewrite lookup_drop in Hj.
    destruct (Hall j) as (ch' & Hch' & Hclass).
    + apply lookup_lt_Some in Hj. lia.
    + congruence.
  - intros [Hlen Hall]. exists (length input - x). split; [done|]. split.
    + intros j Hj.
      destruct (lookup_lt_is_Some_2 input (x + j)) as [ch Hch]; [lia|].
      exists ch. split; [done|].
      eapply forallb_forall; [exact Hall|].
      apply list_elem_of_In, list_elem_of_lookup. exists j.
      by rewrite lookup_drop.
    + replace (x + (length input - x)) with (length input) by lia.
      by rewrite Nat.eqb_refl.
Qed.

(** A pattern that opens with [^] matches at index 0 only. *)
Lemma search_anchored r remaining lastIndex :
  (∀ x, compile input r (S x) (λ _, true) = false) →
  search r input remaining (S lastIndex) = false.
Proof.
  intros Hr. revert lastIndex.
  induction remaining as [|n IH]; intros i; simpl; rewrite Hr; [done|apply IH].
Qed.

Lemma search_from_start r remaining :
  (∀ x, compile input r (S x) (λ _, true) = false) →
  search r input remaining 0 = compile input r 0 (λ _, true).
Proof.
  intros Hr. destruct remaining as [|n]; simpl.
  - by destruct (compile input r 0 _).
  - rewrite search_anchored by done. by destruct (compile input r 0 _).
Qed.
End PatternFacts.

Lemma length_list_ascii_of_string s :
  length (list_ascii_of_string s) = String.length s.
Proof. induction s as [|c s IH]; simpl; [done|by rewrite IH]. Qed.

Lemma in_class_letters c : in_class letters c = is_ascii_letter c.
Proof.
  unfold in_class, letters, is_ascii_letter, in_atom. cbn [existsb].
  change (N_of_ascii "a") with 97%N. change (N_of_ascii "z") with 122%N.
  change (N_of_ascii "A") with 65%N. change (N_of_ascii "Z") with 90%N.
  rewrite orb_false_r. apply orb_comm.
Qed.

Lemma in_class_word_chars c : in_class word_chars c = is_alnum_or_underscore c.
Proof.
  unfold is_alnum_or_underscore. rewrite <- in_class_letters.
  unfold in_class, word_chars, letters, is_ascii_digit, in_atom. cbn [existsb].
  change (N_of_ascii "0") with 48%N. change (N_of_ascii "9") with 57%N.
  rewrite !orb_false_r. by rewrite !orb_assoc.
Qed.

Lemma forallb_pointwise {A} (f g : A → bool) l :
  (∀ x, f x = g x) → forallb f l = forallb g l.
Proof. intros Hfg. induction l as [|x l IH]; simpl; [done|by rewrite Hfg, IH]. Qed.

(** The pattern of [update] on a string: the rule in the words of the
    specification. *)
Lemma exec_username_pattern s : exec username_pattern s = valid_username s.
Proof.
  unfold exec. cbv zeta. rewrite search_from_start by done.
  destruct s as [|c rest]; [done|].
  cbn [list_ascii_of_string valid_username].
  set (input := c :: list_ascii_of_string rest).
  apply Bool.eq_iff_eq_true.
  change (compile input username_pattern 0 (λ _, true))
    with (if in_class letters c
          then RepeatMatcher (compile input (CharClass word_chars)) 4 15 1
                 (λ y, compile input AssertEnd y (λ _, true))
          else false).
  rewrite in_class_letters. destruct (is_ascii_letter c); [|done].
  rewrite class_to_end by (simpl; lia).
  subst input. cbn [length drop]. rewrite drop_0, length_list_ascii_of_string.
  rewrite Nat.sub_succ, Nat.sub_0_r, !andb_true_iff, !Nat.leb_le.
  rewrite (forallb_pointwise _ _ _ in_class_word_chars).
  cbn [andb]. tauto.
Qed.

(** The pattern as the specification writes it denotes the same rule. *)
Lemma exec_specified_pattern s : exec specified_pattern s = valid_username s.
Proof.
  unfold exec. cbv zeta. rewrite search_from_start by done.
  destruct s as [|c rest]; [done|].
  cbn [list_ascii_of_string valid_username].
  set (input := c :: list_ascii_of_string rest).
  apply Bool.eq_iff_eq_true.
  change (compile input specified_pattern 0 (λ _, true))
    with (if in_class [ClassRange "A" "Z"; ClassRange "a" "z"]%char c
          then RepeatMatcher
                 (compile input
                    (CharClass [ClassRange "A" "Z"; ClassRange "a" "z";
                                ClassRange "0" "9"; ClassChar "_"]%char)) 4 15 1
                 (λ y, compile input AssertEnd y (λ _, true))
          else false).
  assert (Hl : in_class [ClassRange "A" "Z"; ClassRange "a" "z"]%char c
               = is_ascii_letter c).
  { unfold in_class, is_ascii_letter, in_atom. cbn [existsb].
    by rewrite orb_false_r. }
  rewrite Hl. destruct (is_ascii_letter c); [|done].
  rewrite class_to_end by (simpl; lia).
  subst input. cbn [length drop]. rewrite drop_0, length_list_ascii_of_string.
  rewrite Nat.sub_succ, Nat.sub_0_r, !andb_true_iff, !Nat.leb_le.
  rewrite (forallb_pointwise _ is_alnum_or_underscore); [cbn [andb]; tauto|].
  intros ch. unfold is_alnum_or_underscore, is_ascii_letter, is_ascii_digit,
    in_class, in_atom. cbn [existsb].
  by rewrite !orb_false_r, !orb_assoc.
Qed.

Lemma valid_username_length s :
  valid_username s = true → 5 ≤ String.length s ≤ 16.
Proof.
  destruct s as [|c rest]; [done|]. cbn [valid_username String.length].
  rewrite !andb_true_iff, !Nat.leb_le. lia.
Qed.

Lemma valid_username_first c s :
  valid_username (String c s) = true → is_ascii_letter c = true.
Proof. cbn [valid_username]. rewrite !andb_true_iff. tauto. Qed.

Lemma digit_not_letter c : is_ascii_digit c = true → is_ascii_letter c = false.
Proof.
  unfold is_ascii_digit, is_ascii_letter. cbv zeta.
  rewrite andb_true_iff, !N.leb_le. intros [H1 H2].
  apply orb_false_iff. split; apply andb_false_iff; rewrite !N.leb_gt; lia.
Qed.

Section Validator.
Context `{Number number}.

(** C1. The user name check of [update] accepts a string exactly when it
    matches [^[A-Za-z][A-Za-z0-9_]{4,15}$]: a leading ASCII letter followed
    by 4 to 15 characters that are ASCII letters, digits or underscores, 5
    to 16 characters in all.  Every other string is rejected: the empty
    string, a string that starts with a digit or an underscore, a string
    of length 4 or 17. *)
Theorem username_validator_exact :
  (∀ s, test username_pattern (VString s : value number)
        = Some (exec specified_pattern s))
  ∧ (∀ s, test username_pattern (VString s : value number)
          = Some (valid_username s))
  ∧ (∀ s, test username_pattern (VString s : value number) = Some true →
          5 ≤ String.length s ≤ 16)
  ∧ test username_pattern (VString "" : value number) = Some false
  ∧ (∀ c s, is_ascii_digit c = true ∨ c = "_"%char →
            test username_pattern (VString (String c s) : value number)
            = Some false)
  ∧ (∀ s, String.length s = 4 ∨ String.length s = 17 →
          test username_pattern (VString s : value number) = Some false).
Proof.
  assert (Ht : ∀ s, test username_pattern (VString s : value number)
                    = Some (valid_username s)).
  { intros s. unfold test. cbn [ToString]. by rewrite exec_username_pattern. }
  split; [|split; [|split; [|split; [|split]]]].
  - intros s. by rewrite Ht, exec_specified_pattern.
  - exact Ht.
  - intros s Hs. rewrite Ht in Hs. injection Hs as Hs.
    by apply valid_username_length.
  - by rewrite Ht.
  - intros c s Hc. rewrite Ht. f_equal.
    destruct (valid_username (String c s)) eqn:Hv; [|done].
    apply valid_username_first in Hv.
    destruct Hc as [Hd| ->].
    + apply digit_not_letter in Hd. congruence.
    + discriminate Hv.
  - intros s Hlen. rewrite Ht. f_equal.
    destruct (valid_username s) eqn:Hv; [|done].
    apply valid_username_length in Hv. lia.
Qed.
End Validator.

(** ** The handlers *)

Section HandlerFacts.
Context `{Number number} `{UserModel number} {S : Type} (store : Store number S).
Import HttpStatus.

Abbreviation value := (value number).
Abbreviation object := (gmap string value).
Abbreviation request := (request number).

Implicit Types (req : request) (s : S) (user upd : object) (err : value).

Lemma get_set user k v : get (set user k v) k = v.
Proof. unfold get, set. by rewrite lookup_insert_eq. Qed.

Lemma get_set_ne user k k' v : k ≠ k' → get (set user k v) k' = get user k'.
Proof. intros Hk. unfold get, set. by rewrite lookup_insert_ne. Qed.

Lemma lookup_set user k k' v :
  set user k v !! k' = if decide (k' = k) then Some v else user !! k'.
Proof.
  unfold set. case_decide; [subst; apply lookup_insert_eq|].
  by apply lookup_insert_ne.
Qed.


(** What [update] writes into the document once the user name is dealt
    with, field by field. *)
Lemma update_fields_lookup upd user k :
  users.update_fields upd user !! k =
    if decide (k = "avatar") then Some (get upd "avatar")
    else if decide (k = "state") then Some States_ONLINE
    else if decide (k = "email") then
      Some (js_or (get upd "email") (get user "email"))
    else if decide (k = "lastName") then
      Some (js_or (get upd "lastName") (get user "lastName"))
    else if decide (k = "firstName") then
      Some (js_or (get upd "firstName") (get user "firstName"))
    else if decide (k = "registrationDone") then Some (VBool true)
    else user !! k.
Proof.
  unfold users.update_fields. cbv zeta.
  rewrite !lookup_set, !get_set_ne by done.
  repeat case_decide; congruence.
Qed.

(** [update] after the lookup has answered. *)
Lemma run_update req s s1 err (found : option object) :
  fb store (get (req_user req) "facebookId") s = (s1, (err, found)) →
  run store (users.update req) s =
    let key := get (req_user req) "facebookId" in
    match found with
    | Some user =>
        if ToBoolean err then
          (s1, [EFb key err found],
           Some (problem BAD_REQUEST
                   (VString "Could not save user information")
                   (VString "There was an error processing the request to save your information")))
        else
          let '(s2, log, r) := run store (snd (users.update_user (req_body req) user)) s1 in
          (s2, EFb key err found :: log, r)
    | None =>
        (s1, [EFb key err found],
         Some (problem BAD_REQUEST
                 (VString "Could not save user information")
                 (VString "There was an error processing the request to save your information")))
    end.
Proof.
  intros Hfb. unfold users.update. cbn [run]. rewrite Hfb.
  destruct found as [user|], (ToBoolean err); done.
Qed.

(** The three ways the callback of the lookup can go. *)
Lemma update_user_cases upd user :
  (ToBoolean (get user "registrationDone") = false
   ∧ test username_pattern (get upd "username") = None
   ∧ users.update_user upd user = (user, Throw))
  ∨ (ToBoolean (get user "registrationDone") = false
     ∧ test username_pattern (get upd "username") = Some false
     ∧ users.update_user upd user =
         (user, Respond (problem BAD_REQUEST (VString "Invalid Username")
                           (VString "User names must be 5-16 characters"))))
  ∨ (∃ named,
       (named = user
        ∨ ToBoolean (get user "registrationDone") = false
          ∧ test username_pattern (get upd "username") = Some true
          ∧ named = set user "username" (get upd "username"))
       ∧ users.update_user upd user =
           (users.update_fields upd named,
            user_save (users.update_fields upd named) users.update_saved)).
Proof.
  unfold users.update_user.
  destruct (ToBoolean (get user "registrationDone")); cbn [negb].
  - right; right. exists user. eauto.
  - destruct (test username_pattern (get upd "username")) as [[|]|].
    + right; right. eexists. split; [right; eauto|done].
    + right; left. done.
    + left. done.
Qed.
End HandlerFacts.

Section RouteTheorems.
Context `{Number number} `{UserModel number} {S : Type} (store : Store number S).
Import HttpStatus.

Abbreviation value := (value number).
Abbreviation object := (gmap string value).
Abbreviation request := (request number).

Implicit Types (req : request) (s : S) (user upd : object) (err : value).

(** C9. [create] answers every request with the problem 405 "method not
    allowed", the title "You're not allowed to create users on this
    system" and a detail that says users come from third-party
    authentication; it makes no store call and leaves the store as it
    was. *)
Theorem create_always_not_allowed req s :
  sent store (users.create req) s =
    Some (problem 405
            (VString "You're not allowed to create users on this system")
            (VString "Users are created via 3rd party (Facebook) authentication"))
  ∧ calls store (users.create req) s = []
  ∧ final store (users.create req) s = s.
Proof. unfold sent, calls, final, users.create. cbn [run fst snd]. done. Qed.

(** When the user found has [registrationDone = false] and the check
    answers false on the user name of the body, [update] sends the problem
    400 "Invalid Username" / "User names must be 5-16 characters"; the
    document is left as it was found, and the lookup is the only store
    call: nothing is saved, and the store stays in the state the lookup
    left it in.  A user name on which the check raises instead of
    answering is outside this lemma. *)
Theorem update_invalid_username req s s1 err user :
  fb store (get (req_user req) "facebookId") s = (s1, (err, Some user)) →
  ToBoolean err = false →
  get user "registrationDone" = VBool false →
  test username_pattern (get (req_body req) "username") = Some false →
  run store (users.update req) s =
    (s1, [EFb (get (req_user req) "facebookId") err (Some user)],
     Some (problem BAD_REQUEST (VString "Invalid Username")
             (VString "User names must be 5-16 characters")))
  ∧ BAD_REQUEST = 400%Z
  ∧ fst (users.update_user (req_body req) user) = user
  ∧ (∀ u e r, ESave u e r ∉ calls store (users.update req) s)
  ∧ final store (users.update req) s = s1.
Proof.
  intros Hfb Herr Hreg Htest.
  assert (Hrun : run store (users.update req) s =
    (s1, [EFb (get (req_user req) "facebookId") err (Some user)],
     Some (problem BAD_REQUEST (VString "Invalid Username")
             (VString "User names must be 5-16 characters")))).
  { rewrite (run_update store req s s1 err (Some user) Hfb). cbv zeta.
    rewrite Herr. unfold users.update_user. by rewrite Hreg, Htest. }
  split; [exact Hrun|]. split; [done|]. split.
  { unfold users.update_user. by rewrite Hreg, Htest. }
  unfold calls, final. rewrite Hrun. split; [|done].
  intros u e r Hin. cbn in Hin. log_cases Hin.
Qed.

(** C3. When the user found has [registrationDone = true], [update] never
    checks the user name: whatever the body holds, the document goes to
    [save] and the response is 200; the user name of the saved document is
    the one the user had. *)
Theorem update_registered_keeps_username req s s1 err user s2 err2 saved :
  fb store (get (req_user req) "facebookId") s = (s1, (err, Some user)) →
  ToBoolean err = false →
  get user "registrationDone" = VBool true →
  save store (users.update_fields (req_body req) user) s1 = (s2, (err2, saved)) →
  run store (users.update req) s =
    (s2, [EFb (get (req_user req) "facebookId") err (Some user);
          ESave (users.update_fields (req_body req) user) err2 saved],
     Some (json OK saved))
  ∧ users.update_fields (req_body req) user !! "username" = user !! "username".
Proof.
  intros Hfb Herr Hreg Hsave.
  rewrite (run_update store req s s1 err (Some user) Hfb). cbv zeta.
  rewrite Herr. unfold users.update_user. rewrite Hreg. cbn [ToBoolean negb snd run].
  rewrite Hsave. split; [done|].
  rewrite update_fields_lookup. by repeat case_decide.
Qed.

(** C10. When the user found has [registrationDone = false] and the body
    has no [username] at all, the check passes all the same: the absent
    value reads as the string "undefined", which matches the pattern.  The
    user name of the document is then set to the absent value, and the
    document is saved. *)
Theorem update_absent_username req s s1 err user :
  fb store (get (req_user req) "facebookId") s = (s1, (err, Some user)) →
  ToBoolean err = false →
  get user "registrationDone" = VBool false →
  req_body req !! "username" = None →
  ToString (get (req_body req) "username") = Some "undefined"
  ∧ test username_pattern (get (req_body req) "username") = Some true
  ∧ ∃ u s2 err2 saved,
      u !! "username" = Some VUndefined
      ∧ save store u s1 = (s2, (err2, saved))
      ∧ run store (users.update req) s =
          (s2, [EFb (get (req_user req) "facebookId") err (Some user);
                ESave u err2 saved],
           Some (json OK saved)).
Proof.
  intros Hfb Herr Hreg Hbody.
  assert (Hget : get (req_body req) "username" = VUndefined).
  { unfold get. by rewrite Hbody. }
  rewrite Hget. split; [done|]. split; [by vm_compute|].
  set (u := users.update_fields (req_body req) (set user "username" VUndefined)).
  destruct (save store u s1) as [s2 [err2 saved]] eqn:Hsave.
  exists u, s2, err2, saved. split; [|split; [done|]].
  - subst u. rewrite update_fields_lookup. repeat (case_decide; [done|]).
    by rewrite lookup_set.
  - rewrite (run_update store req s s1 err (Some user) Hfb). cbv zeta.
    rewrite Herr. unfold users.update_user. rewrite Hreg, Hget.
    replace (test username_pattern VUndefined) with (Some true) by by vm_compute.
    cbn [ToBoolean negb snd run]. fold u. by rewrite Hsave.
Qed.

(** A [save] in the log of [update]: the lookup found a user without
    error, the document saved is that user's with the fields of [update]
    written, and the response is sent from the callback of [save]. *)
Lemma update_save_inv req s u e r :
  ESave u e r ∈ calls store (users.update req) s →
  ∃ s1 err user named s2,
    fb store (get (req_user req) "facebookId") s = (s1, (err, Some user))
    ∧ ToBoolean err = false
    ∧ (named = user
       ∨ ToBoolean (get user "registrationDone") = false
         ∧ test username_pattern (get (req_body req) "username") = Some true
         ∧ named = set user "username" (get (req_body req) "username"))
    ∧ u = users.update_fields (req_body req) named
    ∧ save store u s1 = (s2, (e, r))
    ∧ run store (users.update req) s =
        (s2, [EFb (get (req_user req) "facebookId") err (Some user); ESave u e r],
         Some (json OK r)).
Proof.
  unfold calls.
  destruct (fb store (get (req_user req) "facebookId") s)
    as [s1 [err found]] eqn:Hfb.
  rewrite (run_update store req s s1 err found Hfb). cbv zeta.
  destruct found as [user|]; [|cbn; intros Hin; log_cases Hin].
  destruct (ToBoolean err) eqn:Herr; [cbn; intros Hin; log_cases Hin|].
  destruct (update_user_cases (req_body req) user)
    as [(_ & _ & ->)|[(_ & _ & ->)|(named & Hnamed & ->)]];
    cbn [snd run]; try (cbn; intros Hin; by log_cases Hin).
  destruct (save store (users.update_fields (req_body req) named) s1)
    as [s2 [err2 saved]] eqn:Hsave.
  cbn. intros Hin. log_cases Hin.
  injection Hin as -> -> ->.
  exists s1, err, user, named, s2. by rewrite Hsave.
Qed.


(** A [remove] in the log of [delete]: the lookup found the user removed,
    and the response is sent from the callback of [remove]. *)
Lemma delete_remove_inv req s u e r :
  ERemove u e r ∈ calls store (users.delete req) s →
  ∃ s1 err s2,
    fb store (get (req_user req) "facebookId") s = (s1, (err, Some u))
    ∧ ToBoolean err = false
    ∧ remove store u s1 = (s2, (e, r))
    ∧ run store (users.delete req) s =
        (s2, [EFb (get (req_user req) "facebookId") err (Some u); ERemove u e r],
         Some (json OK r)).
Proof.
  unfold calls, users.delete. cbn [run].
  destruct (fb store (get (req_user req) "facebookId") s)
    as [s1 [err found]] eqn:Hfb.
  destruct found as [user|], (ToBoolean err) eqn:Herr;
    cbn [orb is_null run]; try (cbn; intros Hin; by log_cases Hin).
  destruct (remove store user s1) as [s2 [err2 result]] eqn:Hremove.
  cbn. intros Hin. log_cases Hin.
  injection Hin as -> -> ->.
  exists s1, err, s2. by rewrite Hremove.
Qed.

(** C6. Whenever [update] gets as far as [save], and whenever [delete]
    gets as far as [remove], the response is 200 with the second argument
    of the callback as body, whatever the first argument, the error, is:
    the callback of [save] does not look at it. *)
Theorem mutation_response_ignores_error req s :
  (∀ u e r, ESave u e r ∈ calls store (users.update req) s →
            sent store (users.update req) s = Some (json 200 r))
  ∧ (∀ u e r, ERemove u e r ∈ calls store (users.delete req) s →
              sent store (users.delete req) s = Some (json 200 r))
  ∧ (∀ e r : value, users.update_saved e r = Respond (json 200 r)).
Proof.
  split; [|split; [|done]].
  - intros u e r Hin.
    destruct (update_save_inv req s u e r Hin)
      as (s1 & err & user & named & s2 & _ & _ & _ & _ & _ & Hrun).
    unfold sent. by rewrite Hrun.
  - intros u e r Hin.
    destruct (delete_remove_inv req s u e r Hin) as (s1 & err & s2 & _ & _ & _ & Hrun).
    unfold sent. by rewrite Hrun.
Qed.

(** C7. [getMessages] sends the status 204, a success status, with
    neither title nor detail exactly when the store reports an error, or
    hands [null] for the document, or hands a document whose [messages] is
    [null]; the response is the same in the three cases.  In every other
    case, a document without any [messages] among them, it sends 200 with
    the whole document as body. *)
Theorem getMessages_response req s s1 err doc :
  getMessages store (get (req_params req) "mid") s = (s1, (err, doc)) →
  let no_content :=
    ToBoolean err = true ∨ doc = None
    ∨ ∃ d, doc = Some d ∧ d !! "messages" = Some VNull in
  calls store (users.getMessages req) s
    = [EGetMessages (get (req_params req) "mid") err doc]
  ∧ (no_content ∧
     sent store (users.getMessages req) s
       = Some (problem 204 VUndefined VUndefined)
     ∨ ¬ no_content ∧
       ∃ d, doc = Some d
            ∧ sent store (users.getMessages req) s = Some (json 200 (VObject d)))
  ∧ (∀ d, ToBoolean err = false → doc = Some d → d !! "messages" = None →
          sent store (users.getMessages req) s = Some (json 200 (VObject d))).
Proof.
  intros Hget no_content.
  assert (Hnull : ∀ d : object,
    value_is_null (get d "messages") = true ↔ d !! "messages" = Some VNull).
  { intros d. unfold get. destruct (d !! "messages") as [[]|]; cbn; split; congruence. }
  unfold calls, sent, users.getMessages. cbn [run]. rewrite Hget.
  subst no_content.
  destruct (ToBoolean err) eqn:Herr; cbn [orb].
  { split; [done|]. split; [left; split; [by left|done]|]. done. }
  destruct doc as [d|]; cbn [is_null orb].
  2:{ split; [done|]. split; [left; split; [by right; left|done]|]. done. }
  destruct (value_is_null (get d "messages")) eqn:Hmsg.
  - apply Hnull in Hmsg. split; [done|]. split.
    + left. split; [|done]. right; right. eauto.
    + intros d' _ [= <-] Hnone. congruence.
  - split; [done|]. split.
    + right. split; [|eauto].
      intros [?|[?|(d' & [= <-] & Hd')]]; [done..|].
      apply Hnull in Hd'. congruence.
    + by intros d' _ [= <-] _.
Qed.

(** C8. [list] calls [publicList] with the [skip] and [take] of the query.
    When that call reports an error the response is the problem 500 with
    the detail "Could not list users due to internal error".  When it
    hands [null] or an empty array the response is 204 without a body, and
    [count] is not called.  When it hands a non-empty array, [count] is
    called once, after the listing, and the response is 200 with the
    array as [results] and, as [meta.total], the count when it is truthy
    and 0 otherwise. *)
Theorem list_response req s s1 err results :
  let skip := get (req_query req) "skip" in
  let take := get (req_query req) "take" in
  publicList store skip take s = (s1, (err, results)) →
  (ToBoolean err = true →
     run store (users.list req) s =
       (s1, [EPublicList skip take err results],
        Some (problem 500 (VString "Unexpected problem")
                (VString "Could not list users due to internal error"))))
  ∧ (ToBoolean err = false → results = None ∨ results = Some [] →
     run store (users.list req) s =
       (s1, [EPublicList skip take err results], Some (json 204 VUndefined)))
  ∧ (∀ l s2 err2 n,
       ToBoolean err = false → results = Some l → l ≠ [] →
       count store (VObject ∅) s1 = (s2, (err2, n)) →
       run store (users.list req) s =
         (s2, [EPublicList skip take err results; ECount (VObject ∅) err2 n],
          Some (json 200 (VObject
            (<["meta" := VObject
                 {["total" := if ToBoolean n then n else VNumber num_zero]}]>
               {["results" := VArray l]}))))).
Proof.
  intros skip take Hlist. unfold users.list. cbn [run]. fold skip take.
  rewrite Hlist. split; [|split].
  - by intros ->.
  - intros -> [-> | ->]; done.
  - intros l s2 err2 n -> -> Hl Hcount.
    destruct l as [|x l]; [done|]. cbn [length Nat.eqb run].
    by rewrite Hcount.
Qed.

(** [update] reads five properties of the body and nothing else of it. *)
Lemma update_user_body upd1 upd2 user :
  (∀ k, k ∈ body_fields → upd1 !! k = upd2 !! k) →
  users.update_user upd1 user = users.update_user upd2 user.
Proof.
  intros Hbody.
  assert (Hget : ∀ k, k ∈ body_fields → get upd1 k = get upd2 k).
  { intros k Hk. unfold get. by rewrite Hbody. }
  unfold users.update_user, users.update_fields.
  rewrite !(Hget "username"), !(Hget "firstName"), !(Hget "lastName"),
    !(Hget "email"), !(Hget "avatar"); [done|unfold body_fields; repeat constructor..].
Qed.

(** C5. [update] and [delete] find the user they act on by one lookup,
    [User.fb], under the [facebookId] of the session's principal.  For two
    requests of the same principal the lookup is the same call with the
    same answer, whatever their bodies, path parameters and queries hold:
    [delete] runs the same, the document removed is the one the lookup
    found, a document saved by [update] is the one the lookup found with
    the fields of [update] written (its [_id] and every other property
    are as found), and properties of the body other than the five read,
    an id among them, do not change the run of [update]. *)
Theorem mutations_resolve_by_principal req1 req2 s s1 err found :
  get (req_user req1) "facebookId" = get (req_user req2) "facebookId" →
  fb store (get (req_user req1) "facebookId") s = (s1, (err, found)) →
  let key := get (req_user req1) "facebookId" in
  run store (users.delete req1) s = run store (users.delete req2) s
  ∧ (∀ req, req = req1 ∨ req = req2 →
       head (calls store (users.update req) s) = Some (EFb key err found)
       ∧ head (calls store (users.delete req) s) = Some (EFb key err found)
       ∧ (∀ k e f, EFb k e f ∈ calls store (users.update req) s
                   ∨ EFb k e f ∈ calls store (users.delete req) s → k = key)
       ∧ (∀ u e r, ESave u e r ∈ calls store (users.update req) s →
            ∃ user, found = Some user
                    ∧ u !! "_id" = user !! "_id"
                    ∧ ∀ k, k ∉ written_fields → u !! k = user !! k)
       ∧ (∀ u e r, ERemove u e r ∈ calls store (users.delete req) s →
            found = Some u))
  ∧ ((∀ k, k ∈ body_fields → req_body req1 !! k = req_body req2 !! k) →
     run store (users.update req1) s = run store (users.update req2) s).
Proof.
  intros Hkey Hfb key.
  assert (Hfb2 : fb store (get (req_user req2) "facebookId") s = (s1, (err, found)))
    by by rewrite <- Hkey.
  split; [|split].
  - unfold users.delete. cbn [run]. by rewrite <- Hkey.
  - intros req Hreq.
    assert (Hfb' : fb store (get (req_user req) "facebookId") s = (s1, (err, found)))
      by by destruct Hreq as [-> | ->].
    assert (Hkey' : get (req_user req) "facebookId" = key)
      by by destruct Hreq as [-> | ->].
    clear Hreq. split; [|split; [|split; [|split]]].
    + unfold calls. rewrite (run_update store req s s1 err found Hfb'). cbv zeta.
      rewrite Hkey'. destruct found as [user|]; [|done].
      destruct (ToBoolean err); [done|]. by destruct (run store _ s1) as [[? ?] ?].
    + unfold calls, users.delete. cbn [run]. rewrite Hfb', Hkey'.
      by destruct (run store _ s1) as [[? ?] ?].
    + intros k e f [Hin|Hin].
      * revert Hin. unfold calls.
        rewrite (run_update store req s s1 err found Hfb'). cbv zeta.
        rewrite Hkey'. destruct found as [user|].
        2:{ cbn. intros Hin. log_cases Hin. by injection Hin. }
        destruct (ToBoolean err).
        { cbn. intros Hin. log_cases Hin. by injection Hin. }
        destruct (update_user_cases (req_body req) user)
          as [(_ & _ & ->)|[(_ & _ & ->)|(named & _ & ->)]]; cbn [snd run].
        -- cbn. intros Hin. log_cases Hin. by injection Hin.
        -- cbn. intros Hin. log_cases Hin. by injection Hin.
        -- destruct (save store _ s1) as [s2 [err2 saved]].
           cbn. intros Hin. log_cases Hin. by injection Hin.
      * revert Hin. unfold calls, users.delete. cbn [run]. rewrite Hfb', Hkey'.
        destruct found as [user|], (ToBoolean err); cbn [orb is_null run];
          try (cbn; intros Hin; log_cases Hin; by injection Hin).
        destruct (remove store user s1) as [s2 [err2 result]].
        cbn. intros Hin. log_cases Hin. by injection Hin.
    + intros u e r Hin.
      destruct (update_save_inv req s u e r Hin)
        as (s1' & err' & user & named & s2 & Hfb'' & _ & Hnamed & -> & _).
      rewrite Hfb' in Hfb''. injection Hfb'' as <- <- ->.
      exists user. split; [done|].
      assert (Hother : ∀ k, k ∉ written_fields →
        users.update_fields (req_body req) named !! k = user !! k).
      { intros k Hk. rewrite update_fields_lookup.
        repeat (case_decide; [subst k; exfalso; apply Hk;
                              unfold written_fields; repeat constructor|]).
        destruct Hnamed as [->|(_ & _ & ->)]; [done|].
        rewrite lookup_set. case_decide; [|done].
        subst k. exfalso. apply Hk. unfold written_fields. repeat constructor. }
      split; [|done]. apply Hother. unfold written_fields.
      intros Hid. log_cases Hid.
    + intros u e r Hin.
      destruct (delete_remove_inv req s u e r Hin) as (s1' & err' & s2 & Hfb'' & _).
      rewrite Hfb' in Hfb''. by injection Hfb'' as <- <- ->.
  - intros Hbody.
    rewrite (run_update store req1 s s1 err found Hfb),
      (run_update store req2 s s1 err found Hfb2).
    cbv zeta. rewrite <- Hkey. destruct found as [user|]; [|done].
    by rewrite (update_user_body _ _ _ Hbody).
Qed.
End RouteTheorems.

(** ** The handlers on the store in memory *)

Example update_ab1 :
  run (memory_store false) (users.update (request_of "1001" ∅ body_ab1)) db0
  = (db0, [EFb (VString "1001") VNull (Some alice)],
     Some (problem 400 (VString "Invalid Username")
             (VString "User names must be 5-16 characters"))).
Proof. reflexivity. Qed.

Example update_abcde :
  let saved := users.update_fields body_abcde (set alice "username" (VString "abcde")) in
  run (memory_store false) (users.update (request_of "1001" ∅ body_abcde)) db0
  = (<["52aff48d78b818c844000001" := saved]> db0,
     [EFb (VString "1001") VNull (Some alice); ESave saved VNull (VObject saved)],
     Some (json 200 (VObject saved)))
  ∧ saved !! "username" = Some (VString "abcde")
  ∧ saved !! "registrationDone" = Some (VBool true)
  ∧ saved !! "state" = Some (VString "online").
Proof. cbv zeta. repeat split; reflexivity. Qed.

(** ** The theorems at concrete requests

    Each theorem with hypotheses is applied to a request on [db0]; the
    store of [mutation_response_ignores_error_witness] fails every write. *)

(** C2. The body [{username: {toString: true}}] for a user with
    [registrationDone = false]: the user name supplied is an object, not a
    string of the required form, yet [update] sends no "Invalid Username"
    problem.  Converting the object to a string raises a TypeError in the
    callback of the lookup, so no response is sent at all; the document is
    left as found and nothing is saved. *)
Theorem update_unconvertible_username_no_problem :
  let req := request_of "1001" ∅ body_object_name in
  fb (memory_store false) (get (req_user req) "facebookId") db0
    = (db0, (VNull, Some alice))
  ∧ get alice "registrationDone" = VBool false
  ∧ get (req_body req) "username" = VObject {["toString" := VBool true]}
  ∧ test username_pattern (get (req_body req) "username") = None
  ∧ run (memory_store false) (users.update req) db0
    = (db0, [EFb (VString "1001") VNull (Some alice)], None)
  ∧ sent (memory_store false) (users.update req) db0
    ≠ Some (problem 400 (VString "Invalid Username")
              (VString "User names must be 5-16 characters"))
  ∧ fst (users.update_user (req_body req) alice) = alice.
Proof.
  intros req.
  split; [reflexivity|]. split; [reflexivity|]. split; [reflexivity|].
  split; [reflexivity|]. split; [reflexivity|]. split; [|reflexivity].
  intros Hsent.
  change (@None (response Z) = Some (problem 400 (VString "Invalid Username")
            (VString "User names must be 5-16 characters"))) in Hsent.
  discriminate Hsent.
Qed.

Lemma update_invalid_username_witness :
  run (memory_store false) (users.update (request_of "1001" ∅ body_ab1)) db0
  = (db0, [EFb (VString "1001") VNull (Some alice)],
     Some (problem 400 (VString "Invalid Username")
             (VString "User names must be 5-16 characters")))
  ∧ fst (users.update_user body_ab1 alice) = alice.
Proof.
  destruct (update_invalid_username (memory_store false)
              (request_of "1001" ∅ body_ab1) db0 db0 VNull alice)
    as (Hrun & _ & Hdoc & _); [reflexivity..|].
  split; [exact Hrun|exact Hdoc].
Defined.

Lemma update_registered_keeps_username_witness :
  let saved := users.update_fields body_ab1 bob in
  sent (memory_store false) (users.update (request_of "1002" ∅ body_ab1)) db0
  = Some (json 200 (VObject saved))
  ∧ saved !! "username" = Some (VString "bobby").
Proof.
  destruct (update_registered_keeps_username (memory_store false)
              (request_of "1002" ∅ body_ab1) db0 db0 VNull bob
              (<["52aff48d78b818c844000002" := users.update_fields body_ab1 bob]> db0)
              VNull (VObject (users.update_fields body_ab1 bob)))
    as [Hrun Hname]; [reflexivity..|].
  split; [unfold sent; by rewrite Hrun|].
  etrans; [exact Hname|reflexivity].
Defined.

Lemma update_absent_username_witness :
  test username_pattern (get (∅ : gmap string (value Z)) "username") = Some true
  ∧ ∃ u s2 err2 saved,
      u !! "username" = Some VUndefined
      ∧ save (memory_store false) u db0 = (s2, (err2, saved))
      ∧ run (memory_store false) (users.update (request_of "1001" ∅ ∅)) db0
        = (s2, [EFb (VString "1001") VNull (Some alice); ESave u err2 saved],
           Some (json 200 saved)).
Proof.
  destruct (update_absent_username (memory_store false)
              (request_of "1001" ∅ ∅) db0 db0 VNull alice)
    as (_ & Htest & Hsave); [reflexivity..|].
  split; [exact Htest|exact Hsave].
Defined.


Lemma mutations_resolve_by_principal_witness :
  run (memory_store false)
      (users.delete (request_of "1001" {["id" := VString "52aff48d78b818c844000002"]} ∅)) db0
  = run (memory_store false) (users.delete (request_of "1001" ∅ body_other_id)) db0
  ∧ ∀ u e r,
      ESave u e r ∈ calls (memory_store false)
                      (users.update (request_of "1001" ∅ body_other_id)) db0 →
      ∃ user, Some alice = Some user ∧ u !! "_id" = user !! "_id"
              ∧ ∀ k, k ∉ written_fields → u !! k = user !! k.
Proof.
  destruct (mutations_resolve_by_principal (memory_store false)
              (request_of "1001" {["id" := VString "52aff48d78b818c844000002"]} ∅)
              (request_of "1001" ∅ body_other_id) db0 db0 VNull (Some alice))
    as (Hdelete & Hsame & _); [reflexivity..|].
  split; [exact Hdelete|].
  exact (proj1 (proj2 (proj2 (proj2 (Hsame _ (or_intror eq_refl)))))).
Defined.

Lemma mutation_response_ignores_error_witness :
  let u := users.update_fields body_abcde (set alice "username" (VString "abcde")) in
  ToBoolean (VString "save failed" : value Z) = true
  ∧ ESave u (VString "save failed") VUndefined
      ∈ calls (memory_store true) (users.update (request_of "1001" ∅ body_abcde)) db0
  ∧ sent (memory_store true) (users.update (request_of "1001" ∅ body_abcde)) db0
    = Some (json 200 VUndefined)
  ∧ ERemove alice (VString "remove failed") VUndefined
      ∈ calls (memory_store true) (users.delete (request_of "1001" ∅ ∅)) db0
  ∧ sent (memory_store true) (users.delete (request_of "1001" ∅ ∅)) db0
    = Some (json 200 VUndefined).
Proof.
  intros u.
  assert (Hsave : ESave u (VString "save failed") VUndefined
      ∈ calls (memory_store true) (users.update (request_of "1001" ∅ body_abcde)) db0).
  { apply list_elem_of_further, list_elem_of_here. }
  assert (Hremove : ERemove alice (VString "remove failed") VUndefined
      ∈ calls (memory_store true) (users.delete (request_of "1001" ∅ ∅)) db0).
  { apply list_elem_of_further, list_elem_of_here. }
  split; [done|]. split; [exact Hsave|]. split.
  - exact (proj1 (mutation_response_ignores_error (memory_store true)
                    (request_of "1001" ∅ body_abcde) db0) _ _ _ Hsave).
  - split; [exact Hremove|].
    exact (proj1 (proj2 (mutation_response_ignores_error (memory_store true)
                           (request_of "1001" ∅ ∅) db0)) _ _ _ Hremove).
Defined.

Lemma getMessages_response_witness :
  sent (memory_store false)
       (users.getMessages
          (request_of "1002" {["mid" := VString "52aff48d78b818c844000001"]} ∅)) db0
  = Some (json 200 (VObject alice)).
Proof.
  destruct (getMessages_response (memory_store false)
              (request_of "1002" {["mid" := VString "52aff48d78b818c844000001"]} ∅)
              db0 db0 VNull (Some alice))
    as (_ & _ & Habsent); [reflexivity|].
  apply Habsent; reflexivity.
Defined.

Lemma list_response_witness :
  sent (memory_store false) (users.list (request_of "1001" ∅ ∅)) db0
  = Some (json 200 (VObject
            (<["meta" := VObject {["total" := VNumber 2%Z]}]>
               {["results" := VArray [VObject alice; VObject bob]]})))
  ∧ sent (memory_store true) (users.list (request_of "1001" ∅ ∅)) db0
    = Some (json 200 (VObject
              (<["meta" := VObject {["total" := VNumber 0%Z]}]>
                 {["results" := VArray [VObject alice; VObject bob]]}))).
Proof.
  split.
  - destruct (list_response (memory_store false) (request_of "1001" ∅ ∅)
                db0 db0 VNull (Some [VObject alice; VObject bob]))
      as (_ & _ & Hsome); [reflexivity|].
    unfold sent.
    by rewrite (Hsome [VObject alice; VObject bob] db0 VNull (VNumber 2%Z));
      [|first [reflexivity|discriminate]..].
  - destruct (list_response (memory_store true) (request_of "1001" ∅ ∅)
                db0 db0 VNull (Some [VObject alice; VObject bob]))
      as (_ & _ & Hsome); [reflexivity|].
    unfold sent.
    by rewrite (Hsome [VObject alice; VObject bob] db0
                  (VString "count failed") VUndefined); [|first [reflexivity|discriminate]..].
Defined.

(** * Further properties of the route *)

(** ** [update] and [delete] *)

Lemma js_or_idem `{Number number} (a b : value number) :
  js_or a (js_or a b) = js_or a b.
Proof. unfold js_or. by destruct (ToBoolean a). Qed.

Lemma get_update_fields `{Number number} `{UserModel number}
    (upd user : gmap string (value number)) k :
  get (users.update_fields upd user) k =
    default VUndefined (users.update_fields upd user !! k).
Proof. done. Qed.

Section UpdateDelete.
Context `{Number number} `{UserModel number} {S : Type} (store : Store number S).
Import HttpStatus.

Abbreviation value := (value number).
Abbreviation object := (gmap string value).
Abbreviation request := (request number).

Implicit Types (req : request) (s : S) (user upd : object) (err : value).

(** X1. When the lookup of [update] reports an error, or finds no user,
    the response is the problem 400 "Could not save user information"; the
    lookup is the only store call, whatever the body holds. *)
Theorem update_lookup_failure req s s1 err (found : option object) :
  fb store (get (req_user req) "facebookId") s = (s1, (err, found)) →
  ToBoolean err = true ∨ found = None →
  run store (users.update req) s =
    (s1, [EFb (get (req_user req) "facebookId") err found],
     Some (problem 400
             (VString "Could not save user information")
             (VString "There was an error processing the request to save your information"))).
Proof.
  intros Hfb Hfail. rewrite (run_update store req s s1 err found Hfb). cbv zeta.
  destruct found as [user|]; [|done].
  destruct Hfail as [-> | ?]; done.
Qed.

(** X2. When the lookup of [delete] reports an error, or finds no user, the
    response is the problem 400 "Could not delete user"; nothing is
    removed. *)
Theorem delete_lookup_failure req s s1 err (found : option object) :
  fb store (get (req_user req) "facebookId") s = (s1, (err, found)) →
  ToBoolean err = true ∨ found = None →
  run store (users.delete req) s =
    (s1, [EFb (get (req_user req) "facebookId") err found],
     Some (problem 400
             (VString "Could not delete user")
             (VString "There was an error processing the request to save your information"))).
Proof.
  intros Hfb Hfail. unfold users.delete. cbn [run]. rewrite Hfb.
  destruct Hfail as [-> | ->]; [done|].
  by rewrite orb_true_r.
Qed.

(** X3. When the lookup of [delete] finds a user without error, [remove] is
    called on the document found, unchanged, and the response is 200 with
    what [remove] hands back; these are the only two store calls. *)
Theorem delete_found_removes req s s1 err user s2 e r :
  fb store (get (req_user req) "facebookId") s = (s1, (err, Some user)) →
  ToBoolean err = false →
  remove store user s1 = (s2, (e, r)) →
  run store (users.delete req) s =
    (s2, [EFb (get (req_user req) "facebookId") err (Some user); ERemove user e r],
     Some (json 200 r)).
Proof.
  intros Hfb Herr Hremove. unfold users.delete. cbn [run].
  rewrite Hfb, Herr. cbn [orb is_null run]. by rewrite Hremove.
Qed.

(** X4. On a user whose [registrationDone] is falsy, a missing property
    included, a body whose user name passes the check is saved with that
    user name: the document saved holds the value of the body under
    [username], and when that value is a string it obeys the user name
    rule. *)
Theorem update_first_registration req s s1 err user s2 e r :
  let upd := req_body req in
  let u := users.update_fields upd (set user "username" (get upd "username")) in
  fb store (get (req_user req) "facebookId") s = (s1, (err, Some user)) →
  ToBoolean err = false →
  ToBoolean (get user "registrationDone") = false →
  test username_pattern (get upd "username") = Some true →
  save store u s1 = (s2, (e, r)) →
  run store (users.update req) s =
    (s2, [EFb (get (req_user req) "facebookId") err (Some user); ESave u e r],
     Some (json 200 r))
  ∧ u !! "username" = Some (get upd "username")
  ∧ (∀ name, get upd "username" = VString name → valid_username name = true)
  ∧ (∀ user' : object, user' !! "registrationDone" = None →
       ToBoolean (get user' "registrationDone") = false).
Proof.
  intros upd u Hfb Herr Hreg Htest Hsave.
  split; [|split; [|split]].
  - rewrite (run_update store req s s1 err (Some user) Hfb). cbv zeta.
    rewrite Herr. unfold users.update_user. fold upd. rewrite Hreg, Htest.
    cbn [negb snd run]. fold u. by rewrite Hsave.
  - subst u. rewrite update_fields_lookup. repeat (case_decide; [done|]).
    by rewrite lookup_set.
  - intros name Hname. rewrite Hname in Htest. unfold test in Htest.
    cbn [ToString] in Htest. rewrite exec_username_pattern in Htest. congruence.
  - intros user' Hnone. unfold get. by rewrite Hnone.
Qed.

(** X6. [update] sends no response exactly when the lookup found a user
    without error, the user's [registrationDone] is falsy, and the user
    name of the body has no string value; nothing is saved then. *)
Theorem update_no_response_iff req s s1 err (found : option object) :
  fb store (get (req_user req) "facebookId") s = (s1, (err, found)) →
  (sent store (users.update req) s = None ↔
     ∃ user, found = Some user ∧ ToBoolean err = false
             ∧ ToBoolean (get user "registrationDone") = false
             ∧ ToString (get (req_body req) "username") = None)
  ∧ (sent store (users.update req) s = None →
     run store (users.update req) s =
       (s1, [EFb (get (req_user req) "facebookId") err found], None)).
Proof.
  intros Hfb. unfold sent.
  rewrite (run_update store req s s1 err found Hfb). cbv zeta.
  destruct found as [user|].
  2:{ split; [|done]. split; [done|]. by intros (? & ? & _). }
  destruct (ToBoolean err) eqn:Herr.
  { split; [|done]. split; [done|]. by intros (? & _ & ? & _). }
  unfold users.update_user, test.
  destruct (ToBoolean (get user "registrationDone")) eqn:Hreg; cbn [negb].
  - cbn [snd run].
    destruct (save store _ s1) as [s2 [e r]]. cbn [snd].
    split; [|done]. split; [done|]. intros (user' & [= <-] & _ & Hreg' & _).
    congruence.
  - destruct (ToString (get (req_body req) "username")) as [name|] eqn:Hname.
    + destruct (exec username_pattern name); cbn [snd run].
      * destruct (save store _ s1) as [s2 [e r]]. cbn [snd].
        split; [|done]. split; [done|]. by intros (? & _ & _ & _ & ?).
      * split; [|done]. split; [done|]. by intros (? & _ & _ & _ & ?).
    + cbn [snd run]. split; [|done]. split; [|done]. intros _. eauto.
Qed.

(** X7. Writing the fields of [update] twice from the same body gives the
    document that writing them once gives. *)
Theorem update_fields_idempotent upd user :
  users.update_fields upd (users.update_fields upd user)
  = users.update_fields upd user.
Proof.
  apply map_eq. intros k.
  rewrite (update_fields_lookup upd (users.update_fields upd user) k).
  rewrite !get_update_fields, !update_fields_lookup.
  repeat case_decide; try done; subst; cbn [default from_option id];
    by rewrite ?js_or_idem.
Qed.

(** X8. A document that [update] has saved is registered for good: when a
    later lookup finds it, [update] saves again whatever the body holds,
    the user name of the body is not even checked, and the user name saved
    is the one the document had. *)
Theorem username_fixed_after_update req1 s u e r req2 s' s1 err s2 e2 r2 :
  ESave u e r ∈ calls store (users.update req1) s →
  fb store (get (req_user req2) "facebookId") s' = (s1, (err, Some u)) →
  ToBoolean err = false →
  save store (users.update_fields (req_body req2) u) s1 = (s2, (e2, r2)) →
  run store (users.update req2) s' =
    (s2, [EFb (get (req_user req2) "facebookId") err (Some u);
          ESave (users.update_fields (req_body req2) u) e2 r2],
     Some (json 200 r2))
  ∧ users.update_fields (req_body req2) u !! "username" = u !! "username"
  ∧ u !! "registrationDone" = Some (VBool true).
Proof.
  intros Hin Hfb Herr Hsave.
  destruct (update_save_inv store req1 s u e r Hin)
    as (_ & _ & _ & named & _ & _ & _ & _ & Hu & _).
  assert (Hreg : u !! "registrationDone" = Some (VBool true)).
  { rewrite Hu, update_fields_lookup. by repeat case_decide. }
  split; [|split; [|done]].
  - rewrite (run_update store req2 s' s1 err (Some u) Hfb). cbv zeta.
    assert (Hget : get u "registrationDone" = VBool true)
      by (unfold get; by rewrite Hreg).
    rewrite Herr. unfold users.update_user. rewrite Hget.
    cbn [ToBoolean negb snd run]. by rewrite Hsave.
  - rewrite update_fields_lookup. by repeat case_decide.
Qed.
End UpdateDelete.

(** ** The user name check on values that are not strings *)




Section ValidatorOnValues.
Context `{Number number}.


End ValidatorOnValues.

(** ** Statuses, responses and what the handlers read *)

Section RouteShape.
Context `{Number number} `{UserModel number} {S : Type} (store : Store number S).

Abbreviation request := (request number).

Implicit Types (req : request) (s : S).

(** X9. The statuses of the five handlers that use the lookups and
    writes: [create] answers 405 only; [list] 200, 204 or 500;
    [update] and [delete] 200 or 400, so a store error at the lookup is
    reported as a bad request; [getMessages] 200 or 204.  None answers 404:
    a user that is not there is no content, or a bad request. *)
Theorem route_statuses req s (r : response number) :
  (sent store (users.create req) s = Some r → status_of r = 405%Z)
  ∧ (sent store (users.list req) s = Some r →
     status_of r = 200%Z ∨ status_of r = 204%Z ∨ status_of r = 500%Z)
  ∧ (sent store (users.update req) s = Some r →
     status_of r = 200%Z ∨ status_of r = 400%Z)
  ∧ (sent store (users.delete req) s = Some r →
     status_of r = 200%Z ∨ status_of r = 400%Z)
  ∧ (sent store (users.getMessages req) s = Some r →
     status_of r = 200%Z ∨ status_of r = 204%Z).
Proof.
  unfold sent. split; [|split; [|split; [|split]]].
  - by intros [= <-].
  - unfold users.list. cbn [run].
    destruct (publicList store _ _ s) as [s1 [err results]].
    destruct (ToBoolean err); [intros [= <-]; auto|].
    destruct results as [[|x l]|]; cbn [length Nat.eqb run]; try (intros [= <-]; auto).
    destruct (count store _ s1) as [s2 [err2 n]]. intros [= <-]; auto.
  - destruct (fb store (get (req_user req) "facebookId") s)
      as [s1 [err found]] eqn:Hfb.
    rewrite (run_update store req s s1 err found Hfb). cbv zeta.
    destruct found as [user|]; [|intros [= <-]; auto].
    destruct (ToBoolean err); [intros [= <-]; auto|].
    destruct (update_user_cases (req_body req) user)
      as [(_ & _ & ->)|[(_ & _ & ->)|(named & _ & ->)]]; cbn [snd run].
    + done.
    + intros [= <-]; auto.
    + destruct (save store _ s1) as [s2 [e saved]]. intros [= <-]; auto.
  - unfold users.delete. cbn [run].
    destruct (fb store _ s) as [s1 [err found]].
    destruct found as [user|], (ToBoolean err); cbn [orb is_null run];
      try (intros [= <-]; auto).
    destruct (remove store user s1) as [s2 [e result]]. intros [= <-]; auto.
  - unfold users.getMessages. cbn [run].
    destruct (getMessages store _ s) as [s1 [err doc]].
    destruct (ToBoolean err); cbn [orb]; [intros [= <-]; auto|].
    destruct doc as [d|]; cbn [is_null orb]; [|intros [= <-]; auto].
    destruct (value_is_null (get d "messages")); intros [= <-]; auto.
Qed.

(** X10. Against a store that hands a lookup [null] or a document and a
    listing [null] or an array, [create], [list], [delete] and
    [getMessages] send a response on every request; no handler makes more
    than two store calls, and [getMessages] makes exactly one. *)
Theorem route_always_responds req s :
  is_Some (sent store (users.create req) s)
  ∧ is_Some (sent store (users.list req) s)
  ∧ is_Some (sent store (users.delete req) s)
  ∧ is_Some (sent store (users.getMessages req) s)
  ∧ length (calls store (users.list req) s) ≤ 2
  ∧ length (calls store (users.update req) s) ≤ 2
  ∧ length (calls store (users.delete req) s) ≤ 2
  ∧ length (calls store (users.getMessages req) s) = 1.
Proof.
  unfold sent, calls.
  assert (Hlist : is_Some (run store (users.list req) s).2
                  ∧ length (run store (users.list req) s).1.2 ≤ 2).
  { unfold users.list. cbn [run].
    destruct (publicList store _ _ s) as [s1 [err results]].
    destruct (ToBoolean err); [cbn; eauto|].
    destruct results as [[|x l]|]; cbn [length Nat.eqb run];
      [cbn; eauto| |cbn; eauto].
    destruct (count store _ s1) as [s2 [err2 n]]. cbn; eauto. }
  assert (Hupdate : length (run store (users.update req) s).1.2 ≤ 2).
  { destruct (fb store (get (req_user req) "facebookId") s)
      as [s1 [err found]] eqn:Hfb.
    rewrite (run_update store req s s1 err found Hfb). cbv zeta.
    destruct found as [user|]; [|cbn; lia].
    destruct (ToBoolean err); [cbn; lia|].
    destruct (update_user_cases (req_body req) user)
      as [(_ & _ & ->)|[(_ & _ & ->)|(named & _ & ->)]]; cbn [snd run];
      [cbn; lia..|].
    destruct (save store _ s1) as [s2 [e saved]]. cbn; lia. }
  assert (Hdelete : is_Some (run store (users.delete req) s).2
                    ∧ length (run store (users.delete req) s).1.2 ≤ 2).
  { unfold users.delete. cbn [run].
    destruct (fb store _ s) as [s1 [err found]].
    destruct found as [user|], (ToBoolean err); cbn [orb is_null run];
      [cbn; eauto| |cbn; eauto..].
    destruct (remove store user s1) as [s2 [e result]]. cbn; eauto. }
  assert (Hmessages : is_Some (run store (users.getMessages req) s).2
                      ∧ length (run store (users.getMessages req) s).1.2 = 1).
  { unfold users.getMessages. cbn [run].
    destruct (getMessages store _ s) as [s1 [err doc]].
    destruct (ToBoolean err); cbn [orb]; [cbn; eauto|].
    destruct doc as [d|]; cbn [is_null orb]; [|cbn; eauto].
    destruct (value_is_null (get d "messages")); cbn; eauto. }
  split; [cbn; eauto|]. tauto.
Qed.
End RouteShape.

(** ** [getById], [getCohortsById], [addCohortForUser], [removeCohortFromUser] *)

Section QueryFacts.
Context `{Number number} `{NumberZero number} `{UserModel number}.
Context {S : Type} (store : QueryStore number S).

Abbreviation value := (value number).
Abbreviation request := (request number).

Implicit Types (req : request) (s : S) (h : request → query number).

(** The response of each of the four handlers, from what the store
    answered. *)
Lemma query_sent_answered h req s :
  h ∈ query_handlers →
  query_sent store (h req) s =
    let '(err, results) := answered store (h req) s in
    if ToBoolean err then
      Some (problem 500 (VString "Unexpected problem")
              (VString (internal_error_detail (h req))))
    else if value_is_null results then Some (json 204 VUndefined)
    else
      match length_is_zero results with
      | None => None
      | Some true => Some (json 204 VUndefined)
      | Some false => Some (json 200 results)
      end.
Proof.
  intros Hh. unfold query_handlers in Hh. log_cases Hh; subst h;
    unfold query_sent, answered, run_query; cbn.
  - by destruct (getById store _ s) as [s1 [err results]].
  - by destruct (getCohortsById store _ s) as [s1 [err results]].
  - by destruct (addCohort store _ _ s) as [s1 [err results]].
  - by destruct (removeCohort store _ _ s) as [s1 [err results]].
Qed.

(** X11. When the store reports an error, each of the four handlers sends
    the problem 500 "Unexpected problem" with its own detail, whatever the
    results are: [undefined] results do no harm then. *)
Theorem query_store_error h req s err results :
  h ∈ query_handlers →
  answered store (h req) s = (err, results) →
  ToBoolean err = true →
  query_sent store (h req) s =
    Some (problem 500 (VString "Unexpected problem")
            (VString (internal_error_detail (h req))))
  ∧ internal_error_detail (users.getById req)
    = "Could not retrieve user due to internal error"
  ∧ internal_error_detail (users.getCohortsById req)
    = "Could not retrieve cohorts due to internal error"
  ∧ internal_error_detail (users.addCohortForUser req)
    = "Could not save cohort due to internal error"
  ∧ internal_error_detail (users.removeCohortFromUser req)
    = "Could not remove cohort due to internal error".
Proof.
  intros Hh Hans Herr. rewrite (query_sent_answered h req s Hh), Hans.
  by rewrite Herr.
Qed.

(** X12. Without a store error, each of the four handlers answers by the
    results alone.  [null], the empty array and the empty string are no
    content, and so is an object whose [length] is the number 0; an array
    with an element, and an object without [length], are sent back
    unchanged with 200; on [undefined] the handler raises a TypeError and
    sends nothing. *)
Theorem query_results h req s err results :
  h ∈ query_handlers →
  answered store (h req) s = (err, results) →
  ToBoolean err = false →
  (results = VNull ∨ results = VArray [] ∨ results = VString "" →
     query_sent store (h req) s = Some (json 204 VUndefined))
  ∧ (∀ o n, results = VObject o → o !! "length" = Some (VNumber n) →
       num_is_zero n = true →
       query_sent store (h req) s = Some (json 204 VUndefined))
  ∧ (∀ x l, results = VArray (x :: l) →
       query_sent store (h req) s = Some (json 200 results))
  ∧ (∀ o, results = VObject o → o !! "length" = None →
       query_sent store (h req) s = Some (json 200 results))
  ∧ (results = VUndefined → query_sent store (h req) s = None).
Proof.
  intros Hh Hans Herr. rewrite (query_sent_answered h req s Hh), Hans, Herr.
  split; [|split; [|split; [|split]]].
  - by intros [-> | [-> | ->]].
  - intros o n -> Hlen Hzero. cbn. unfold get. rewrite Hlen. cbn. by rewrite Hzero.
  - by intros x l ->.
  - intros o -> Hlen. cbn. unfold get. by rewrite Hlen.
  - by intros ->.
Qed.

(** X13. The four handlers answer 200, 204 or 500 and nothing else: a user
    or a cohort that is not there is no content, never a 404. *)
Theorem query_statuses h req s (r : response number) :
  h ∈ query_handlers →
  query_sent store (h req) s = Some r →
  status_of r = 200%Z ∨ status_of r = 204%Z ∨ status_of r = 500%Z.
Proof.
  intros Hh. rewrite (query_sent_answered h req s Hh).
  destruct (answered store (h req) s) as [err results].
  destruct (ToBoolean err); [intros [= <-]; auto|].
  destruct (value_is_null results); [intros [= <-]; auto|].
  destruct (length_is_zero results) as [[|]|]; [intros [= <-]; auto..|done].
Qed.
End QueryFacts.

Section Unread.
Context `{Number number} `{NumberZero number} `{UserModel number}.
Context {S S' : Type} (store : Store number S) (queries : QueryStore number S').

(** X14. [list], [getMessages] and the four handlers of one call read the
    query and the path parameters of a request and nothing else: two
    requests that differ in their bodies and in their principals run the
    same.  In particular the handlers that add and remove a cohort, and
    the one that reads the messages, act on the user the path names, whoever
    makes the request. *)
Theorem body_and_principal_unread (req1 req2 : request number) s s' :
  req_query req1 = req_query req2 →
  req_params req1 = req_params req2 →
  run store (users.list req1) s = run store (users.list req2) s
  ∧ run store (users.getMessages req1) s = run store (users.getMessages req2) s
  ∧ ∀ h, h ∈ query_handlers →
         run_query queries (h req1) s' = run_query queries (h req2) s'.
Proof.
  intros Hquery Hparams. split; [|split].
  - unfold users.list. cbn [run]. by rewrite Hquery.
  - unfold users.getMessages. cbn [run]. by rewrite Hparams.
  - intros h Hh. unfold query_handlers in Hh. log_cases Hh; subst h;
      unfold run_query, users.getById, users.getCohortsById,
        users.addCohortForUser, users.removeCohortFromUser;
      by rewrite Hparams.
Qed.
End Unread.

(** ** The further theorems at concrete requests *)

Lemma update_lookup_failure_witness :
  run (memory_store false) (users.update (request_of "9999" ∅ body_abcde)) db0
  = (db0, [EFb (VString "9999") VNull None],
     Some (problem 400
             (VString "Could not save user information")
             (VString "There was an error processing the request to save your information"))).
Proof.
  apply (update_lookup_failure (memory_store false)
           (request_of "9999" ∅ body_abcde) db0 db0 VNull None);
    [reflexivity|by right].
Defined.

Lemma delete_lookup_failure_witness :
  run (memory_store false) (users.delete (request_of "9999" ∅ ∅)) db0
  = (db0, [EFb (VString "9999") VNull None],
     Some (problem 400
             (VString "Could not delete user")
             (VString "There was an error processing the request to save your information"))).
Proof.
  apply (delete_lookup_failure (memory_store false)
           (request_of "9999" ∅ ∅) db0 db0 VNull None);
    [reflexivity|by right].
Defined.

Lemma delete_found_removes_witness :
  run (memory_store false) (users.delete (request_of "1001" ∅ ∅)) db0
  = (delete "52aff48d78b818c844000001" db0,
     [EFb (VString "1001") VNull (Some alice); ERemove alice VNull (VObject alice)],
     Some (json 200 (VObject alice))).
Proof.
  apply (delete_found_removes (memory_store false)
           (request_of "1001" ∅ ∅) db0 db0 VNull alice);
    reflexivity.
Defined.

Lemma update_first_registration_witness :
  let u := users.update_fields body_abcde (set erin "username" (VString "abcde")) in
  erin !! "registrationDone" = None
  ∧ sent (memory_store false) (users.update (request_of "1005" ∅ body_abcde)) db2
    = Some (json 200 (VObject u))
  ∧ u !! "username" = Some (VString "abcde")
  ∧ valid_username "abcde" = true.
Proof.
  intros u.
  destruct (update_first_registration (memory_store false)
              (request_of "1005" ∅ body_abcde) db2 db2 VNull erin
              (<["52aff48d78b818c844000005" := u]> db2) VNull (VObject u))
    as (Hrun & Hname & Hvalid & _); [reflexivity..|].
  split; [reflexivity|]. split; [unfold sent; by rewrite Hrun|].
  split; [exact Hname|]. by apply Hvalid.
Defined.

Lemma update_no_response_iff_witness :
  run (memory_store false) (users.update (request_of "1001" ∅ body_object_name)) db0
  = (db0, [EFb (VString "1001") VNull (Some alice)], None).
Proof.
  destruct (update_no_response_iff (memory_store false)
              (request_of "1001" ∅ body_object_name) db0 db0 VNull (Some alice))
    as [Hiff Hrun]; [reflexivity|].
  apply Hrun, Hiff. exists alice. repeat split; reflexivity.
Defined.

Lemma username_fixed_after_update_witness :
  let u := users.update_fields body_abcde (set alice "username" (VString "abcde")) in
  let db := <["52aff48d78b818c844000001" := u]> db0 in
  sent (memory_store false) (users.update (request_of "1001" ∅ body_ab1)) db
  = Some (json 200 (VObject (users.update_fields body_ab1 u)))
  ∧ users.update_fields body_ab1 u !! "username" = Some (VString "abcde").
Proof.
  intros u db.
  destruct (username_fixed_after_update (memory_store false)
              (request_of "1001" ∅ body_abcde) db0 u VNull (VObject u)
              (request_of "1001" ∅ body_ab1) db db VNull
              (<["52aff48d78b818c844000001" := users.update_fields body_ab1 u]> db)
              VNull (VObject (users.update_fields body_ab1 u)))
    as (Hrun & Hname & _); [|reflexivity..|].
  { apply list_elem_of_further, list_elem_of_here. }
  split; [unfold sent; by rewrite Hrun|].
  etrans; [exact Hname|reflexivity].
Defined.

Lemma query_store_error_witness :
  query_sent (memory_queries true) (users.getById (request_for "52aff48d78b818c844000001" "c1")) db1
  = Some (problem 500 (VString "Unexpected problem")
            (VString "Could not retrieve user due to internal error")).
Proof.
  destruct (query_store_error (memory_queries true) users.getById
              (request_for "52aff48d78b818c844000001" "c1") db1
              (VString "read failed") VUndefined)
    as (Hsent & _); [apply list_elem_of_here|reflexivity..|].
  exact Hsent.
Defined.

Lemma query_results_witness :
  query_sent (memory_queries false)
    (users.getCohortsById (request_for "52aff48d78b818c844000003" "c1")) db1
  = Some (json 200 (VArray [VString "c1"; VString "c2"]))
  ∧ query_sent (memory_queries false)
      (users.getCohortsById (request_for "52aff48d78b818c844000001" "c1")) db1
    = Some (json 204 VUndefined).
Proof.
  split.
  - destruct (query_results (memory_queries false) users.getCohortsById
                (request_for "52aff48d78b818c844000003" "c1") db1
                VNull (VArray [VString "c1"; VString "c2"]))
      as (_ & _ & Harray & _);
      [apply list_elem_of_further, list_elem_of_here|reflexivity..|].
    by apply (Harray (VString "c1") [VString "c2"]).
  - destruct (query_results (memory_queries false) users.getCohortsById
                (request_for "52aff48d78b818c844000001" "c1") db1
                VNull (VArray []))
      as (Hempty & _);
      [apply list_elem_of_further, list_elem_of_here|reflexivity..|].
    apply Hempty. right. by left.
Defined.

Lemma query_statuses_witness :
  let r := json 200 (VObject (set carol "cohorts" (VArray [VString "c2"]))) in
  query_sent (memory_queries false)
    (users.removeCohortFromUser (request_for "52aff48d78b818c844000003" "c1")) db1
  = Some r
  ∧ (status_of r = 200%Z ∨ status_of r = 204%Z ∨ status_of r = 500%Z).
Proof.
  intros r. split; [reflexivity|].
  apply (query_statuses (memory_queries false) users.removeCohortFromUser
           (request_for "52aff48d78b818c844000003" "c1") db1 r);
    [do 3 apply list_elem_of_further; apply list_elem_of_here|reflexivity].
Defined.

Lemma body_and_principal_unread_witness :
  run (memory_store false)
      (users.getMessages (request_of "1001" {["mid" := VString "52aff48d78b818c844000002"]} ∅)) db0
  = run (memory_store false)
      (users.getMessages
         (request_of "1002" {["mid" := VString "52aff48d78b818c844000002"]} body_abcde)) db0
  ∧ run_query (memory_queries false)
      (users.addCohortForUser
         {| req_query := ∅;
            req_params := <["mid" := VString "52aff48d78b818c844000003"]> {["id" := VString "c3"]};
            req_body := ∅; req_user := {["facebookId" := VString "1001"]} |}) db1
    = run_query (memory_queries false)
        (users.addCohortForUser (request_for "52aff48d78b818c844000003" "c3")) db1.
Proof.
  split.
  - apply (body_and_principal_unread (memory_store false) (memory_queries false)
             (request_of "1001" {["mid" := VString "52aff48d78b818c844000002"]} ∅)
             (request_of "1002" {["mid" := VString "52aff48d78b818c844000002"]} body_abcde)
             db0 db1); reflexivity.
  - apply (body_and_principal_unread (memory_store false) (memory_queries false)
             {| req_query := ∅;
                req_params := <["mid" := VString "52aff48d78b818c844000003"]> {["id" := VString "c3"]};
                req_body := ∅; req_user := {["facebookId" := VString "1001"]} |}
             (request_for "52aff48d78b818c844000003" "c3") db0 db1);
      [reflexivity..|].
    do 2 apply list_elem_of_further. apply list_elem_of_here.
Defined.
